(** * VelvetPOS: the cart and checkout logic of [client/js/pos.js]

    A shallow embedding of the [POSManager] class: the cart operations
    ([addToCart], [updateCartItemQuantity], [removeFromCart], [clearCart]),
    the totals ([updateTotals], [calculateTotal], [updateChangeDue]) and
    [checkout], together with the parts of the page they read and write.
    Further on: [loadStoreConfig] and the stock column of
    [loadInventoryTable] from the same file, [adjustColor] of [auth.js], the
    inventory alerts of the admin dashboard and the [createStoreConfig]
    factory of the configuration template.

    Numbers.  Quantities and stock levels are integers and are modelled in
    [Z].  Monetary amounts and the tax rate, binary64 numbers on the page,
    are modelled as exact rationals [Q], so a computed amount can differ
    from the page's in its last digits (7 + 7 * 0.08 is 7.56 here and
    7.5600000000000005 there).  The theorems below therefore say which
    formula is evaluated, which branch is taken given the outcome of a
    comparison, and what sign a result has; none equates two amounts that
    the page computes in different ways.  Where an example or a witness
    evaluates an amount, the value is that of the model.  Module [Double]
    repeats the total in binary64 to check the scenarios against the page's
    own arithmetic. *)

From Stdlib Require Import ZArith QArith Qminmax Lqa Lia Ascii String HexString PrimFloat.
From stdpp Require Import base option list strings gmap.

Local Open Scope Z_scope.

(** ** Data *)

(** A product record as delivered by [/api/inventory]. *)
Module Product.
Record t : Type := mk {
  id : string;
  name : string;
  price : Q;
  stock : Z;
  category : string
}.
End Product.

(** A cart line, the object literal pushed by [addToCart]. *)
Module CartItem.
Record t : Type := mk {
  id : string;
  name : string;
  price : Q;
  quantity : Z;
  maxStock : Z
}.

(** [item.quantity = q] on the object held by the cart array. *)
Definition set_quantity (q : Z) (item : t) : t :=
  mk (id item) (name item) (price item) q (maxStock item).
End CartItem.

(** The entries of [transactionData.items]. *)
Module SoldItem.
Record t : Type := mk {
  id : string;
  name : string;
  price : Q;
  quantity : Z
}.
End SoldItem.

(** The body of [POST /api/transactions]. *)
Module TransactionData.
Record t : Type := mk {
  items : list SoldItem.t;
  customer_id : string;
  payment_method : string;
  cash_amount : Q;
  card_amount : Q;
  discount : Q;
  staff_name : string
}.
End TransactionData.

(** The JSON answer of [/api/transactions]. *)
Module Response.
Record t : Type := mk {
  success : bool;
  change_due : Q;
  error : option string
}.
End Response.

(** What [await this.apiRequest(...)] yields: the parsed body, or the
    [Error] thrown for a network failure or a non-2xx status. *)
Inductive ApiResult (A : Type) : Type :=
  | Resolved (body : A)
  | Thrown (message : string).
Arguments Resolved {A} body.
Arguments Thrown {A} message.

(** The second argument of [showToast]. *)
Inductive ToastType : Type := success | warning | info | error.

(** The first argument of [showToast], one constructor per call site. *)
Inductive ToastMessage : Type :=
  | UpdatedQuantity (name : string)   (* `Updated ${product.name} quantity` *)
  | NotEnoughStock                    (* 'Not enough stock available' *)
  | AddedToCart (name : string)       (* `Added ${product.name} to cart` *)
  | ItemRemoved                       (* 'Item removed from cart' *)
  | CartCleared                       (* 'Cart cleared' *)
  | CartIsEmpty                       (* 'Cart is empty' *)
  | InsufficientCash                  (* 'Insufficient cash amount' *)
  | TransactionCompleted              (* 'Transaction completed successfully!' *)
  | ChangeDue (amount : Q)            (* `Change due: ${symbol}${amount.toFixed(2)}` *)
  | ErrorText (message : string).     (* error.message || 'Transaction failed. Please try again.' *)

Definition Toast : Type := ToastMessage * ToastType.

(** ** State

    The [POSManager] singleton, the elements of the page its cart code
    touches, and the requests it has sent.

    - An input whose value goes through [parseFloat] is held as the outcome
      of that call: [Some q] for a number, [None] for [NaN] (no such element,
      an empty or a non-numeric field).
    - [cartItems] and [checkoutBtn] are [None] when the page has no such
      element; the code tests for that.  The four total labels are written
      when present and never read, so they are held as plain values, before
      [toFixed(2)].
    - [sent] logs every transaction request handed to [apiRequest], and
      [inFlight] counts the [checkout()] calls suspended at their [await]. *)
Record POS : Type := mkPOS {
  (* this.* *)
  cart : list CartItem.t;
  products : list Product.t;
  taxRate : Q;
  (* document *)
  cartItems : option (list CartItem.t);
  checkoutBtn : option bool;              (* .disabled *)
  discountInput : option Q;
  cashReceived : option Q;
  paymentChecked : option string;         (* input[name="payment"]:checked *)
  customerSelect : option string;
  cartSubtotal : Q;
  cartTax : Q;
  cartTotal : Q;
  changeDue : Q;
  toastContainer : list Toast;
  (* authManager.getCurrentUser()?.name *)
  currentUserName : option string;
  (* network *)
  sent : list TransactionData.t;
  inFlight : nat
}.

Definition set_cart (c : list CartItem.t) (s : POS) : POS :=
  mkPOS c (products s) (taxRate s) (cartItems s) (checkoutBtn s)
    (discountInput s) (cashReceived s) (paymentChecked s) (customerSelect s)
    (cartSubtotal s) (cartTax s) (cartTotal s) (changeDue s)
    (toastContainer s) (currentUserName s) (sent s) (inFlight s).

Definition set_products (ps : list Product.t) (s : POS) : POS :=
  mkPOS (cart s) ps (taxRate s) (cartItems s) (checkoutBtn s)
    (discountInput s) (cashReceived s) (paymentChecked s) (customerSelect s)
    (cartSubtotal s) (cartTax s) (cartTotal s) (changeDue s)
    (toastContainer s) (currentUserName s) (sent s) (inFlight s).

Definition set_cartItems (rows : list CartItem.t) (s : POS) : POS :=
  mkPOS (cart s) (products s) (taxRate s) (Some rows) (checkoutBtn s)
    (discountInput s) (cashReceived s) (paymentChecked s) (customerSelect s)
    (cartSubtotal s) (cartTax s) (cartTotal s) (changeDue s)
    (toastContainer s) (currentUserName s) (sent s) (inFlight s).

(** [if (btn) btn.disabled = d]. *)
Definition set_disabled (d : bool) (s : POS) : POS :=
  mkPOS (cart s) (products s) (taxRate s) (cartItems s)
    (match checkoutBtn s with Some _ => Some d | None => None end)
    (discountInput s) (cashReceived s) (paymentChecked s) (customerSelect s)
    (cartSubtotal s) (cartTax s) (cartTotal s) (changeDue s)
    (toastContainer s) (currentUserName s) (sent s) (inFlight s).

Definition set_totals (sub tax tot : Q) (s : POS) : POS :=
  mkPOS (cart s) (products s) (taxRate s) (cartItems s) (checkoutBtn s)
    (discountInput s) (cashReceived s) (paymentChecked s) (customerSelect s)
    sub tax tot (changeDue s)
    (toastContainer s) (currentUserName s) (sent s) (inFlight s).

Definition set_changeDue (c : Q) (s : POS) : POS :=
  mkPOS (cart s) (products s) (taxRate s) (cartItems s) (checkoutBtn s)
    (discountInput s) (cashReceived s) (paymentChecked s) (customerSelect s)
    (cartSubtotal s) (cartTax s) (cartTotal s) c
    (toastContainer s) (currentUserName s) (sent s) (inFlight s).

(** [showToast(message, type)]: appends a toast to [#toastContainer]. *)
Definition showToast (m : ToastMessage) (t : ToastType) (s : POS) : POS :=
  mkPOS (cart s) (products s) (taxRate s) (cartItems s) (checkoutBtn s)
    (discountInput s) (cashReceived s) (paymentChecked s) (customerSelect s)
    (cartSubtotal s) (cartTax s) (cartTotal s) (changeDue s)
    (toastContainer s ++ [(m, t)]) (currentUserName s) (sent s) (inFlight s).

Definition set_network (reqs : list TransactionData.t) (n : nat) (s : POS) : POS :=
  mkPOS (cart s) (products s) (taxRate s) (cartItems s) (checkoutBtn s)
    (discountInput s) (cashReceived s) (paymentChecked s) (customerSelect s)
    (cartSubtotal s) (cartTax s) (cartTotal s) (changeDue s)
    (toastContainer s) (currentUserName s) reqs n.

(** [showLoading('checkoutBtn')] and [hideLoading('checkoutBtn')] of
    [auth.js], as far as the button's [disabled] flag goes. *)
Definition showLoading (s : POS) : POS := set_disabled true s.
Definition hideLoading (s : POS) : POS := set_disabled false s.

(** ** Totals *)

(** [parseFloat(...) || 0]: [NaN] and [0] are falsy. *)
Definition orZero (v : option Q) : Q := default 0%Q v.

(** [this.cart.reduce((sum, item) => sum + (item.price * item.quantity), 0)] *)
Definition subtotalOf (c : list CartItem.t) : Q :=
  foldl (λ sum item, (sum + CartItem.price item * inject_Z (CartItem.quantity item))%Q)
        0%Q c.

Definition calculateTotal (s : POS) : Q :=
  let subtotal := subtotalOf (cart s) in
  let discount := orZero (discountInput s) in
  let taxableAmount := (subtotal - discount)%Q in
  let tax := (taxableAmount * taxRate s)%Q in
  (taxableAmount + tax)%Q.

Definition updateChangeDue (s : POS) : POS :=
  let cashReceived := orZero (cashReceived s) in
  let total := calculateTotal s in
  let change := Qmax 0 (cashReceived - total) in
  set_changeDue change s.

Definition updateTotals (s : POS) : POS :=
  let subtotal := subtotalOf (cart s) in
  let discount := orZero (discountInput s) in
  let taxableAmount := (subtotal - discount)%Q in
  let tax := (taxableAmount * taxRate s)%Q in
  let total := (taxableAmount + tax)%Q in
  updateChangeDue (set_totals subtotal tax total s).

(** ** Cart operations *)

Definition updateCartDisplay (s : POS) : POS :=
  match cartItems s with
  | None => s
  | Some _ =>
      match cart s with
      | [] => updateTotals (set_disabled true (set_cartItems [] s))
      | _ :: _ => updateTotals (set_disabled false (set_cartItems (cart s) s))
      end
  end.

(** [this.cart.find(item => item.id === id)]: the first matching line,
    with its position, through which the code then mutates it. *)
Definition findItem (id : string) (c : list CartItem.t) : option (nat * CartItem.t) :=
  list_find (λ item, CartItem.id item = id) c.

Definition addToCart (product : Product.t) (s : POS) : POS :=
  match findItem (Product.id product) (cart s) with
  | Some (i, existingItem) =>
      if decide (CartItem.quantity existingItem < Product.stock product) then
        let s1 :=
          set_cart (<[i := CartItem.set_quantity (CartItem.quantity existingItem + 1)
                           existingItem]> (cart s)) s in
        let s2 := showToast (UpdatedQuantity (Product.name product)) success s1 in
        updateCartDisplay s2
      else
        showToast NotEnoughStock warning s
  | None =>
      let s1 :=
        set_cart (cart s ++ [CartItem.mk (Product.id product) (Product.name product)
                               (Product.price product) 1 (Product.stock product)]) s in
      let s2 := showToast (AddedToCart (Product.name product)) success s1 in
      updateCartDisplay s2
  end.

Definition removeFromCart (productId : string) (s : POS) : POS :=
  let s1 := set_cart (filter (λ item, CartItem.id item ≠ productId) (cart s)) s in
  let s2 := updateCartDisplay s1 in
  showToast ItemRemoved info s2.

Definition updateCartItemQuantity (productId : string) (change : Z) (s : POS) : POS :=
  match findItem productId (cart s) with
  | None => s
  | Some (i, item) =>
      let newQuantity := CartItem.quantity item + change in
      if decide (newQuantity <= 0) then
        removeFromCart productId s
      else if decide (newQuantity <= CartItem.maxStock item) then
        updateCartDisplay (set_cart (<[i := CartItem.set_quantity newQuantity item]> (cart s)) s)
      else
        showToast NotEnoughStock warning s
  end.

Definition clearCart (s : POS) : POS :=
  let s1 := set_cart [] s in
  let s2 := updateCartDisplay s1 in
  showToast CartCleared info s2.

(** ** The product grid

    [renderProductGrid] builds one card per product that passed the category
    and search filters; only a card whose product has stock gets the click
    listener [() => this.addToCart(product)]. *)
Record Card : Type := mkCard {
  shown : Product.t;
  listener : option Product.t
}.

Definition renderProductGrid (filteredProducts : list Product.t) : list Card :=
  (λ product,
     mkCard product
       (if decide (0 < Product.stock product) then Some product else None))
    <$> filteredProducts.

(** A click on a card runs its listener, if it has one. *)
Definition clickCard (card : Card) (s : POS) : POS :=
  match listener card with
  | Some product => addToCart product s
  | None => s
  end.

(** ** Checkout *)

#[global] Instance Qlt_decision (x y : Q) : Decision (x < y)%Q.
Proof.
  destruct (Qlt_le_dec x y) as [H | H].
  - left; exact H.
  - right; apply Qle_not_lt; exact H.
Defined.

(** [value || dflt] on the [value] of an element that may be missing: the
    empty string is falsy. *)
Definition orText (dflt : string) (v : option string) : string :=
  match v with
  | None => dflt
  | Some x => if decide (x = "") then dflt else x
  end.

(** The collaborators behind [apiRequest]: the answer to a transaction
    request, the products [loadProducts] receives afterwards, and
    [window.DEMO_INVENTORY], its fallback. *)
Record Backend : Type := mkBackend {
  transactions : TransactionData.t → ApiResult Response.t;
  inventory : ApiResult (list Product.t);
  DEMO_INVENTORY : list Product.t
}.

(** [loadProducts()]: the products of the answer, or the demo inventory when
    the request fails; the grid it then re-renders is [renderProductGrid] of
    them. *)
Definition loadProducts (b : Backend) (s : POS) : POS :=
  match inventory b with
  | Resolved ps => set_products ps s
  | Thrown _ => set_products (DEMO_INVENTORY b) s
  end.

Definition soldItem (item : CartItem.t) : SoldItem.t :=
  SoldItem.mk (CartItem.id item) (CartItem.name item) (CartItem.price item)
    (CartItem.quantity item).

(** [checkout()] from its entry to the [await] of the transaction request.
    The second component is the request handed to [apiRequest], or [None]
    when the function returned before building one. *)
Definition checkout_submit (s : POS) : POS * option TransactionData.t :=
  match cart s with
  | [] => (showToast CartIsEmpty warning s, None)
  | _ :: _ =>
      let customerId := orText "" (customerSelect s) in
      let paymentMethod := orText "cash" (paymentChecked s) in
      let cashAmount :=
        if decide (paymentMethod = "cash") then orZero (cashReceived s) else 0%Q in
      let cardAmount :=
        if decide (paymentMethod = "card") then calculateTotal s else 0%Q in
      let discount := orZero (discountInput s) in
      if decide (paymentMethod = "cash" ∧ (cashAmount < calculateTotal s)%Q) then
        (showToast InsufficientCash warning s, None)
      else
        let transactionData :=
          TransactionData.mk (soldItem <$> cart s) customerId paymentMethod
            cashAmount cardAmount discount (orText "Staff" (currentUserName s)) in
        let s1 := showLoading s in
        (set_network (sent s1 ++ [transactionData]) (S (inFlight s1)) s1,
         Some transactionData)
  end.

(** The [try] block after the [await]: the state it leaves and the message
    of the [Error] it threw, if any. *)
Definition checkout_try (b : Backend) (reply : ApiResult Response.t) (s : POS)
  : POS * option string :=
  match reply with
  | Resolved response =>
      if Response.success response then
        let s1 := showToast TransactionCompleted success s in
        let s2 :=
          if decide (0 < Response.change_due response)%Q
          then showToast (ChangeDue (Response.change_due response)) info s1
          else s1 in
        let s3 := clearCart s2 in
        (loadProducts b s3, None)
      else
        (s, Some (orText "Transaction failed" (Response.error response)))
  | Thrown message => (s, Some message)
  end.

(** [checkout()] from the arrival of the answer to its end: [try], [catch],
    [finally]. *)
Definition checkout_settle (b : Backend) (reply : ApiResult Response.t) (s : POS) : POS :=
  let s0 := set_network (sent s) (pred (inFlight s)) s in
  let '(s1, thrown) := checkout_try b reply s0 in
  let s2 :=
    match thrown with
    | Some message =>
        showToast (ErrorText (orText "Transaction failed. Please try again." (Some message)))
          error s1
    | None => s1
    end in
  hideLoading s2.

(** A whole [checkout()] call with nothing else running during its [await]. *)
Definition checkout (b : Backend) (s : POS) : POS :=
  match checkout_submit s with
  | (s1, Some transactionData) => checkout_settle b (transactions b transactionData) s1
  | (s1, None) => s1
  end.

(** The listener of [#checkoutBtn] starts a checkout; a disabled button, or
    one that is not on the page, dispatches no click. *)
Definition clickCheckoutBtn (s : POS) : POS * option TransactionData.t :=
  match checkoutBtn s with
  | Some false => checkout_submit s
  | _ => (s, None)
  end.

(** Whether the transaction submission reported success. *)
Definition succeeded (reply : ApiResult Response.t) : bool :=
  match reply with
  | Resolved response => Response.success response
  | Thrown _ => false
  end.

(** ** Sequences of cart operations *)

Inductive CartOp : Type :=
  | AddItem (product : Product.t)
  | RemoveItem (productId : string)
  | UpdateQuantity (productId : string) (change : Z).

Definition applyOp (s : POS) (op : CartOp) : POS :=
  match op with
  | AddItem product => addToCart product s
  | RemoveItem productId => removeFromCart productId s
  | UpdateQuantity productId change => updateCartItemQuantity productId change s
  end.

Definition run (ops : list CartOp) (s : POS) : POS := foldl applyOp s ops.

(** A freshly constructed [POSManager] on a complete page: the defaults of
    the constructor, empty inputs, nothing sent. *)
Definition initial : POS :=
  mkPOS [] [] (8 # 100) (Some []) (Some true) None None (Some "cash") (Some "")
    0 0 0 0 [] None [] 0.

(** The unique-id and quantity conditions on the lines of a cart. *)
Definition uniqueIds (c : list CartItem.t) : Prop := NoDup (CartItem.id <$> c).

Definition quantityPositive (c : list CartItem.t) : Prop :=
  Forall (λ item, 0 < CartItem.quantity item) c.

Definition quantityWithinStock (c : list CartItem.t) : Prop :=
  Forall (λ item, CartItem.quantity item <= CartItem.maxStock item) c.

(** An [addToCart(product)] on the cart [c] that cannot take a line past its
    [maxStock]: it makes a new line only for a product with stock above 0,
    and it raises the quantity of a line only while that quantity is below
    the line's [maxStock] (as it is whenever [product.stock] is no higher
    than the line's [maxStock]). *)
Definition addKeepsBound (product : Product.t) (c : list CartItem.t) : Prop :=
  match findItem (Product.id product) c with
  | None => 0 < Product.stock product
  | Some (_, line) =>
      CartItem.quantity line < Product.stock product →
      CartItem.quantity line < CartItem.maxStock line
  end.

(** Every [addToCart] of the sequence is such an add, on the cart it finds. *)
Fixpoint addsKeepBound (ops : list CartOp) (s : POS) : Prop :=
  match ops with
  | [] => True
  | op :: rest =>
      match op with
      | AddItem product => addKeepsBound product (cart s)
      | _ => True
      end
      ∧ addsKeepBound rest (applyOp s op)
  end.

(** ** The totals as the specification words them

    With the taxable amount clamped at zero; returns (subtotal, tax, total). *)
Definition spec_computeTotals (subtotal discount rate : Q) : Q * Q * Q :=
  let taxableAmount := Qmax 0 (subtotal - discount) in
  let tax := (taxableAmount * rate)%Q in
  (subtotal, tax, (taxableAmount + tax)%Q).

(** ** The total in binary64

    [calculateTotal] once more, on the numbers of the page: a line is its
    price and quantity. *)
Module Double.
(** [x || 0]: [NaN], [0] and [-0] are falsy. *)
Definition orZero (x : float) : float :=
  if (x =? x)%float && negb (x =? 0)%float then x else 0%float.

Definition calculateTotal (lines : list (float * float)) (discountInput taxRate : float)
  : float :=
  let subtotal := foldl (λ sum item, (sum + item.1 * item.2)%float) 0%float lines in
  let discount := orZero discountInput in
  let taxableAmount := (subtotal - discount)%float in
  let tax := (taxableAmount * taxRate)%float in
  (taxableAmount + tax)%float.
End Double.

(** ** Scenarios *)

(** Product A of the scenarios, price 10.00, with a given stock. *)
Definition productA (stock : Z) : Product.t :=
  Product.mk "A" "Lipstick" (10 # 1) stock "Lips".

(** The line of product A as first added with stock 1, and the cart after the
    product is added again once its stock has been raised to 5. *)
Definition staleCart : list CartItem.t :=
  cart (addToCart (productA 5) (addToCart (productA 1) initial)).

(** A sale of two units of product A at the default tax rate of 0.08, with
    the given discount and cash fields and payment selection. *)
Definition sale (discount cash : option Q) (payment : string) : POS :=
  mkPOS [CartItem.mk "A" "Lipstick" (10 # 1) 2 5] [productA 5] (8 # 100)
    (Some [CartItem.mk "A" "Lipstick" (10 # 1) 2 5]) (Some false)
    discount cash (Some payment) (Some "c42")
    0 0 0 0 [] (Some "Dana") [] 0.

(** The same sale paid with 25.00 in cash, the request [checkout()] builds
    for it, and the states after one and after two calls of [checkout()]
    with no answer received yet. *)
Definition paidSale : POS := sale None (Some (25 # 1)) "cash".

Definition paidRequest : TransactionData.t :=
  TransactionData.mk [SoldItem.mk "A" "Lipstick" (10 # 1) 2] "c42" "cash"
    (25 # 1) 0 0 "Dana".

Definition oneInFlight : POS := (checkout_submit paidSale).1.

Definition twoInFlight : POS := (checkout_submit oneInFlight).1.

(** A backend that accepts every transaction, one that refuses them, and one
    that cannot be reached. *)
Definition accepting : Backend :=
  mkBackend (λ _, Resolved (Response.mk true (34 # 10) None)) (Resolved [productA 3]) [].

Definition rejecting : Backend :=
  mkBackend (λ _, Resolved (Response.mk false 0 (Some "Insufficient stock")))
    (Resolved [productA 5]) [].

Definition unreachable : Backend :=
  mkBackend (λ _, Thrown "Failed to fetch") (Thrown "Failed to fetch") [].

(** ** More of the page *)

(** The page shows the cart as it is: the rows of [#cartItems] are the lines
    of the cart, the checkout button is disabled exactly on an empty cart,
    and the labels hold the totals of the cart under the current inputs. *)
Definition inSync (s : POS) : Prop :=
  cartItems s = Some (cart s)
  ∧ (∀ d, checkoutBtn s = Some d → d = bool_decide (cart s = []))
  ∧ cartSubtotal s = subtotalOf (cart s)
  ∧ cartTotal s = calculateTotal s
  ∧ changeDue s = Qmax 0 (orZero (cashReceived s) - calculateTotal s).

(** The stock cell of a row of [loadInventoryTable]: the class of its
    [stock-status] span and the text inside. *)
Definition stockStatusClass (stock : Z) : string :=
  if decide (stock <= 5) then "low" else if decide (stock <= 0) then "out" else "".

Definition stockStatusLabel (stock : Z) : string :=
  if decide (stock <= 0) then "Out of Stock"
  else if decide (stock <= 5) then "Low Stock" else "In Stock".

(** The [config] object of [/api/store/config], as [loadStoreConfig] reads
    it: [tax_rate] is what [parseFloat] makes of the field. *)
Module StoreConfig.
Record t : Type := mk {
  tax_rate : option Q;
  currency_symbol : option string;
  theme_color : option string
}.
End StoreConfig.

(** The [POSManager] with the two things [loadStoreConfig] sets besides the
    tax rate: [this.currencySymbol] and the [--primary-color] property of
    the document (absent until a script sets it). *)
Record Shop : Type := mkShop {
  manager : POS;
  currencySymbol : string;
  primaryColor : option string
}.

Definition set_taxRate (rate : Q) (s : POS) : POS :=
  mkPOS (cart s) (products s) rate (cartItems s) (checkoutBtn s)
    (discountInput s) (cashReceived s) (paymentChecked s) (customerSelect s)
    (cartSubtotal s) (cartTax s) (cartTotal s) (changeDue s)
    (toastContainer s) (currentUserName s) (sent s) (inFlight s).

(** [parseFloat(x) || 0.08]: [NaN] and [0] are falsy. *)
Definition orDefaultRate (v : option Q) : Q :=
  match v with
  | Some q => if Qeq_bool q 0 then 8 # 100 else q
  | None => 8 # 100
  end.

(** [loadStoreConfig()], given what [apiRequest('/api/store/config')]
    yields: the [config] of the answer if it has one. *)
Definition loadStoreConfig (reply : ApiResult (option StoreConfig.t)) (shop : Shop) : Shop :=
  match reply with
  | Resolved (Some config) =>
      mkShop (set_taxRate (orDefaultRate (StoreConfig.tax_rate config)) (manager shop))
        (orText "$" (StoreConfig.currency_symbol config))
        (match StoreConfig.theme_color config with
         | Some color => if decide (color = "") then primaryColor shop else Some color
         | None => primaryColor shop
         end)
  | Resolved None => shop
  | Thrown _ => shop
  end.

(** [n] calls of [addToCart(product)] in a row. *)
Definition addTimes (n : nat) (product : Product.t) (s : POS) : POS :=
  Nat.iter n (addToCart product) s.

(** ** [adjustColor] of [auth.js]

    The darker shade [applyStoreBranding] derives from the theme colour.
    Strings are taken as sequences of code units below 256; [NaN] is [None],
    and the shift [amount] is an integer, as at the call site. *)
Module Color.

(** [color.replace('#', '')]: the first ['#'] taken out. *)
Fixpoint removeHash (color : string) : string :=
  match color with
  | EmptyString => EmptyString
  | String c rest => if Ascii.eqb c "#"%char then rest else String c (removeHash rest)
  end.

(** The value of a digit of radix 16. *)
Definition hexDigit (c : Ascii.ascii) : option Z :=
  let n := Z.of_N (Ascii.N_of_ascii c) in
  if (48 <=? n) && (n <=? 57) then Some (n - 48)
  else if (97 <=? n) && (n <=? 102) then Some (n - 87)
  else if (65 <=? n) && (n <=? 70) then Some (n - 55)
  else None.

(** The white space [parseInt] skips: tab, line feed, vertical tab, form
    feed, carriage return, space, no-break space. *)
Definition isWhiteSpace (c : Ascii.ascii) : bool :=
  let n := Z.of_N (Ascii.N_of_ascii c) in
  ((9 <=? n) && (n <=? 13)) || (n =? 32) || (n =? 160).

Fixpoint trimStart (s : string) : string :=
  match s with
  | EmptyString => EmptyString
  | String c rest => if isWhiteSpace c then trimStart rest else s
  end.

(** The value of the longest run of digits [s] starts with, after the
    digits already read; [None] while no digit has been read.  (Exact, as
    [parseInt] is on the two characters [adjustColor] hands it.) *)
Fixpoint digits (read : option Z) (s : string) : option Z :=
  match s with
  | EmptyString => read
  | String c rest =>
      match hexDigit c with
      | Some d => digits (Some (16 * default 0 read + d)) rest
      | None => read
      end
  end.

(** [parseInt(s, 16)]: leading white space, a sign, a [0x] or [0X] prefix,
    then the digits; [NaN] when there is no digit. *)
Definition parseInt16 (s : string) : option Z :=
  let trimmed := trimStart s in
  let '(sign, unsigned) :=
    match trimmed with
    | String c rest =>
        if Ascii.eqb c "-" then (-1, rest)
        else if Ascii.eqb c "+" then (1, rest)
        else (1, trimmed)
    | EmptyString => (1, trimmed)
    end in
  let body :=
    match unsigned with
    | String c0 (String c1 rest) =>
        if Ascii.eqb c0 "0" && (Ascii.eqb c1 "x" || Ascii.eqb c1 "X")
        then rest else unsigned
    | _ => unsigned
    end in
  Z.mul sign <$> digits None body.

(** [Math.max(0, Math.min(255, parseInt(part, 16) + amount))]. *)
Definition channel (part : string) (amount : Z) : option Z :=
  (λ v, Z.max 0 (Z.min 255 (v + amount))) <$> parseInt16 part.

(** [x.toString(16)] for an integer or [NaN]. *)
Definition toString16 (x : option Z) : string :=
  match x with
  | None => "NaN"
  | Some 0 => "0"
  | Some (Zpos p) => HexString.Raw.of_pos p ""
  | Some (Zneg p) => String "-"%char (HexString.Raw.of_pos p "")
  end.

Fixpoint zeros (n : nat) : string :=
  match n with
  | O => EmptyString
  | S n' => String "0"%char (zeros n')
  end.

(** [s.padStart(n, '0')]. *)
Definition padStart (n : nat) (s : string) : string :=
  String.append (zeros (n - String.length s)) s.

Definition adjustColor (color : string) (amount : Z) : string :=
  let hex := removeHash color in
  let r := channel (substring 0 2 hex) amount in
  let g := channel (substring 2 2 hex) amount in
  let b := channel (substring 4 2 hex) amount in
  String "#"%char
    (String.append (padStart 2 (toString16 r))
       (String.append (padStart 2 (toString16 g)) (padStart 2 (toString16 b)))).

(** The two digits [adjustColor] writes for a channel value. *)
Definition twoDigits (v : Z) : string := padStart 2 (toString16 (Some v)).

(** A colour in full: six digits of radix 16. *)
Definition sixDigits (hex : string) : Prop :=
  String.length hex = 6%nat
  ∧ Forall (λ c, is_Some (hexDigit c)) (list_ascii_of_string hex).

End Color.

(** ** Inventory alerts of the admin dashboard

    The items [renderInventoryAlerts] puts into [#inventoryAlertsList], on a
    page that has this list, with the count each one shows. *)
Inductive Alert : Type :=
  | OutOfStockAlert (count : Z)     (* `${outOfStock} products are out of stock` *)
  | LowStockAlert (count : Z)       (* `${lowStock} products need restocking` *)
  | AllGood.                        (* 'All products are well stocked' *)

Definition renderInventoryAlerts (lowStock outOfStock : Z) : list Alert :=
  let html := [] in
  let html := if decide (0 < outOfStock) then html ++ [OutOfStockAlert outOfStock] else html in
  let html := if decide (0 < lowStock) then html ++ [LowStockAlert lowStock] else html in
  if decide (outOfStock = 0 ∧ lowStock = 0) then [AllGood] else html.

(** [loadInventoryAlerts()], given what [apiRequest('/api/inventory')]
    yields. *)
Definition loadInventoryAlerts (reply : ApiResult (list Product.t)) : list Alert :=
  match reply with
  | Resolved products =>
      let lowStock :=
        filter (λ p, 0 < Product.stock p ∧ Product.stock p <= 5) products in
      let outOfStock := filter (λ p, Product.stock p <= 0) products in
      renderInventoryAlerts (Z.of_nat (length lowStock)) (Z.of_nat (length outOfStock))
  | Thrown _ => renderInventoryAlerts 5 2
  end.

(** ** The store configuration factory

    [createStoreConfig(overrides)] of the configuration template.  An object
    is the finite map of its own properties; [V] is the type of the values,
    [obj m] the object with the properties [m], and [spread v] the properties
    that [...v] copies ([spread (obj m) = m], and nothing for a number, a
    boolean or [null]).  A property that is not there reads [undefined],
    which spreads to nothing. *)
Module Factory.
Section Factory.

Context {V : Type}.
Variable obj : gmap string V → V.
Variable spread : V → gmap string V.
Variable STORE_CONFIG : gmap string V.

(** [...o.k] *)
Definition spreadOf (v : option V) : gmap string V :=
  match v with
  | Some x => spread x
  | None => ∅
  end.

(** The sections the factory merges key by key. *)
Definition merged : list string :=
  ["branding"; "contact"; "regional"; "receipt"; "loyalty"; "payment";
   "printer"; "inventory"; "reporting"; "ui"; "offline"].

Definition createStoreConfig (overrides : gmap string V) : gmap string V :=
  foldl (λ config k,
           <[k := obj (spreadOf (overrides !! k) ∪ spreadOf (STORE_CONFIG !! k))]> config)
        (overrides ∪ STORE_CONFIG) merged.

End Factory.

(** Values for the scenarios: numbers, booleans and objects. *)
#[warnings="-register-all"]
Inductive Value : Type :=
  | Num (n : Z)
  | Flag (b : bool)
  | Obj (m : gmap string Value).

Definition spreadValue (v : Value) : gmap string Value :=
  match v with
  | Obj m => m
  | _ => ∅
  end.

End Factory.

(** A small template with the eleven sections, a name and an [email]
    object, and overrides in the manner of [BUDGET_STORE_CONFIG]: a name, one
    key of [regional], and an [email] object with one key. *)
Definition templateSection : Factory.Value :=
  Factory.Obj {[ "taxRate" := Factory.Num 8; "timezone" := Factory.Num 5 ]}.

Definition template : gmap string Factory.Value :=
  <["storeName" := Factory.Num 1]>
    (<["email" := Factory.Obj {[ "enabled" := Factory.Flag false;
                                 "smtpPort" := Factory.Num 587 ]}]>
       (list_to_map ((λ k, (k, templateSection)) <$> Factory.merged))).

Definition budgetOverrides : gmap string Factory.Value :=
  {[ "storeName" := Factory.Num 2;
     "regional" := Factory.Obj {[ "taxRate" := Factory.Num 6 ]};
     "email" := Factory.Obj {[ "enabled" := Factory.Flag true ]} ]}.

(** * Properties *)

(** ** What the display code leaves alone *)

Lemma cart_updateCartDisplay (s : POS) : cart (updateCartDisplay s) = cart s.
Proof.
  unfold updateCartDisplay.
  destruct (cartItems s); [|reflexivity].
  destruct (cart s) eqn:E; simpl; congruence.
Qed.

Lemma toasts_updateCartDisplay (s : POS) :
  toastContainer (updateCartDisplay s) = toastContainer s.
Proof.
  unfold updateCartDisplay.
  destruct (cartItems s); [|reflexivity]. destruct (cart s); reflexivity.
Qed.

Lemma inputs_updateCartDisplay (s : POS) :
  discountInput (updateCartDisplay s) = discountInput s ∧
  cashReceived (updateCartDisplay s) = cashReceived s ∧
  paymentChecked (updateCartDisplay s) = paymentChecked s ∧
  customerSelect (updateCartDisplay s) = customerSelect s.
Proof.
  unfold updateCartDisplay.
  destruct (cartItems s); [|done]. destruct (cart s); done.
Qed.

Lemma network_updateCartDisplay (s : POS) :
  sent (updateCartDisplay s) = sent s ∧ inFlight (updateCartDisplay s) = inFlight s.
Proof.
  unfold updateCartDisplay.
  destruct (cartItems s); [|done]. destruct (cart s); done.
Qed.

(** ** [find] and in-place mutation *)

Lemma findItem_Some (id : string) (c : list CartItem.t) i line :
  findItem id c = Some (i, line) →
  c !! i = Some line ∧ CartItem.id line = id.
Proof.
  unfold findItem. intros H. apply list_find_Some in H. tauto.
Qed.

Lemma findItem_None (id : string) (c : list CartItem.t) :
  findItem id c = None ↔ id ∉ CartItem.id <$> c.
Proof.
  unfold findItem. rewrite list_find_None, Forall_forall. split.
  - intros H Hin. apply list_elem_of_fmap in Hin as (x & -> & Hx). by apply (H x).
  - intros H x Hx Heq. apply H. apply list_elem_of_fmap. exists x. by split.
Qed.

Lemma ids_set_quantity (c : list CartItem.t) i line q :
  c !! i = Some line →
  CartItem.id <$> <[i := CartItem.set_quantity q line]> c = CartItem.id <$> c.
Proof.
  intros H. rewrite list_fmap_insert. simpl. apply list_insert_id.
  rewrite list_lookup_fmap, H. reflexivity.
Qed.

Lemma maxStocks_set_quantity (c : list CartItem.t) i line q :
  c !! i = Some line →
  CartItem.maxStock <$> <[i := CartItem.set_quantity q line]> c = CartItem.maxStock <$> c.
Proof.
  intros H. rewrite list_fmap_insert. simpl. apply list_insert_id.
  rewrite list_lookup_fmap, H. reflexivity.
Qed.

(** ** The three branches of [addToCart] *)

Lemma addToCart_increment product s i line :
  findItem (Product.id product) (cart s) = Some (i, line) →
  CartItem.quantity line < Product.stock product →
  cart (addToCart product s)
  = <[i := CartItem.set_quantity (CartItem.quantity line + 1) line]> (cart s).
Proof.
  intros Hf Hlt. unfold addToCart. rewrite Hf.
  destruct (decide _) as [_ | Hn]; [|lia].
  rewrite cart_updateCartDisplay. reflexivity.
Qed.

Lemma addToCart_refused product s i line :
  findItem (Product.id product) (cart s) = Some (i, line) →
  Product.stock product <= CartItem.quantity line →
  addToCart product s = showToast NotEnoughStock warning s.
Proof.
  intros Hf Hge. unfold addToCart. rewrite Hf.
  destruct (decide _) as [Hlt | _]; [lia | reflexivity].
Qed.

Lemma addToCart_new product s :
  findItem (Product.id product) (cart s) = None →
  cart (addToCart product s)
  = cart s ++ [CartItem.mk (Product.id product) (Product.name product)
                 (Product.price product) 1 (Product.stock product)].
Proof.
  intros Hf. unfold addToCart. rewrite Hf.
  rewrite cart_updateCartDisplay. reflexivity.
Qed.

(** C4.  [addToCart] never makes a second line for a product id that the cart
    already has.  When a line for [product.id] exists and its quantity is
    below [product.stock], the quantity of that line goes up by exactly 1 and
    nothing is appended (same length, same ids in the same order, all other
    lines untouched).  When its quantity is at or above [product.stock], the
    call is refused with the "Not enough stock available" warning and the
    cart is unchanged.  When no line exists, one line with quantity 1 and
    [maxStock = product.stock] is appended. *)
Theorem addToCart_one_line_per_product (product : Product.t) (s : POS) :
  (∀ i line,
      findItem (Product.id product) (cart s) = Some (i, line) →
      CartItem.quantity line < Product.stock product →
      cart (addToCart product s)
      = <[i := CartItem.set_quantity (CartItem.quantity line + 1) line]> (cart s)
      ∧ cart (addToCart product s) !! i
        = Some (CartItem.mk (CartItem.id line) (CartItem.name line)
                  (CartItem.price line) (CartItem.quantity line + 1)
                  (CartItem.maxStock line))
      ∧ length (cart (addToCart product s)) = length (cart s)
      ∧ CartItem.id <$> cart (addToCart product s) = CartItem.id <$> cart s)
  ∧ (∀ i line,
      findItem (Product.id product) (cart s) = Some (i, line) →
      Product.stock product <= CartItem.quantity line →
      cart (addToCart product s) = cart s
      ∧ toastContainer (addToCart product s)
        = toastContainer s ++ [(NotEnoughStock, warning)])
  ∧ (findItem (Product.id product) (cart s) = None →
      cart (addToCart product s)
      = cart s ++ [CartItem.mk (Product.id product) (Product.name product)
                     (Product.price product) 1 (Product.stock product)]).
Proof.
  split; [|split].
  - intros i line Hf Hlt.
    pose proof (findItem_Some _ _ _ _ Hf) as [Hi _].
    rewrite (addToCart_increment _ _ _ _ Hf Hlt).
    split; [reflexivity|]. split; [|split].
    + apply list_lookup_insert_eq. by eapply lookup_lt_Some.
    + apply length_insert.
    + by apply ids_set_quantity.
  - intros i line Hf Hge.
    rewrite (addToCart_refused _ _ _ _ Hf Hge). split; reflexivity.
  - apply addToCart_new.
Qed.

Lemma addToCart_one_line_per_product_witness :
  cart (addToCart (productA 1) (addToCart (productA 1) initial))
  = cart (addToCart (productA 1) initial)
  ∧ cart (addToCart (productA 2) (addToCart (productA 1) initial))
    = [CartItem.mk "A" "Lipstick" (10 # 1) 2 1].
Proof.
  split.
  - apply (proj1 (proj2 (addToCart_one_line_per_product (productA 1)
                           (addToCart (productA 1) initial))) 0%nat
             (CartItem.mk "A" "Lipstick" (10 # 1) 1 1)).
    + reflexivity.
    + simpl. lia.
  - rewrite (proj1 (proj1 (addToCart_one_line_per_product (productA 2)
                           (addToCart (productA 1) initial)) 0%nat
             (CartItem.mk "A" "Lipstick" (10 # 1) 1 1) eq_refl ltac:(simpl; lia))).
    reflexivity.
Defined.

(** ** [removeFromCart] and [updateCartItemQuantity] *)

Lemma cart_removeFromCart productId s :
  cart (removeFromCart productId s)
  = filter (λ item, CartItem.id item ≠ productId) (cart s).
Proof.
  unfold removeFromCart. simpl. rewrite cart_updateCartDisplay. reflexivity.
Qed.

Lemma removed_id_gone productId (c : list CartItem.t) :
  productId ∉ CartItem.id <$> filter (λ item, CartItem.id item ≠ productId) c.
Proof.
  intros Hin. apply list_elem_of_fmap in Hin as (x & -> & Hx).
  apply list_elem_of_filter in Hx as [Hne _]. by apply Hne.
Qed.

(** C5.  [updateCartItemQuantity(productId, change)]: without a line for
    [productId] nothing at all changes (no toast either).  Otherwise, with
    [newQuantity = item.quantity + change]: when [newQuantity <= 0] the line
    is removed and the other lines stay; when [0 < newQuantity <= maxStock]
    the line's quantity becomes [newQuantity]; when [newQuantity > maxStock]
    (the remaining case: a positive [newQuantity], as every one above a
    [maxStock >= 0] is) the call is refused with the "Not enough stock
    available" warning and the cart is unchanged. *)
Theorem updateCartItemQuantity_cases (productId : string) (change : Z) (s : POS) :
  (findItem productId (cart s) = None →
     updateCartItemQuantity productId change s = s)
  ∧ (∀ i item,
       findItem productId (cart s) = Some (i, item) →
       let newQuantity := CartItem.quantity item + change in
       (newQuantity <= 0 →
          cart (updateCartItemQuantity productId change s)
          = filter (λ item, CartItem.id item ≠ productId) (cart s)
          ∧ productId ∉ CartItem.id <$> cart (updateCartItemQuantity productId change s))
       ∧ (0 < newQuantity <= CartItem.maxStock item →
          cart (updateCartItemQuantity productId change s)
          = <[i := CartItem.set_quantity newQuantity item]> (cart s)
          ∧ cart (updateCartItemQuantity productId change s) !! i
            = Some (CartItem.mk (CartItem.id item) (CartItem.name item)
                      (CartItem.price item) newQuantity (CartItem.maxStock item)))
       ∧ (CartItem.maxStock item < newQuantity → 0 < newQuantity →
          cart (updateCartItemQuantity productId change s) = cart s
          ∧ toastContainer (updateCartItemQuantity productId change s)
            = toastContainer s ++ [(NotEnoughStock, warning)])).
Proof.
  split.
  - intros Hf. unfold updateCartItemQuantity. rewrite Hf. reflexivity.
  - intros i item Hf newQuantity.
    pose proof (findItem_Some _ _ _ _ Hf) as [Hi _].
    unfold updateCartItemQuantity. rewrite Hf. fold newQuantity.
    split; [|split].
    + intros Hle. destruct (decide (newQuantity <= 0)) as [_ | Hn]; [|lia].
      rewrite cart_removeFromCart. split; [reflexivity | apply removed_id_gone].
    + intros [Hpos Hmax].
      destruct (decide (newQuantity <= 0)) as [Hn | _]; [lia|].
      destruct (decide (newQuantity <= CartItem.maxStock item)) as [_ | Hn]; [|lia].
      rewrite cart_updateCartDisplay. simpl. split; [reflexivity|].
      apply list_lookup_insert_eq. by eapply lookup_lt_Some.
    + intros Hgt Hpos.
      destruct (decide (newQuantity <= 0)) as [Hn | _]; [lia|].
      destruct (decide (newQuantity <= CartItem.maxStock item)) as [Hn | _]; [lia|].
      split; reflexivity.
Qed.

Lemma updateCartItemQuantity_cases_witness :
  updateCartItemQuantity "B" 1 (addToCart (productA 3) initial)
  = addToCart (productA 3) initial
  ∧ cart (updateCartItemQuantity "A" 2 (addToCart (productA 3) initial))
    = [CartItem.mk "A" "Lipstick" (10 # 1) 3 3]
  ∧ cart (updateCartItemQuantity "A" 3 (addToCart (productA 3) initial))
    = [CartItem.mk "A" "Lipstick" (10 # 1) 1 3]
  ∧ cart (updateCartItemQuantity "A" (-1) (addToCart (productA 3) initial)) = [].
Proof.
  pose proof (updateCartItemQuantity_cases "B" 1 (addToCart (productA 3) initial))
    as [HB _].
  pose proof (λ change,
      proj2 (updateCartItemQuantity_cases "A" change (addToCart (productA 3) initial))
        0%nat (CartItem.mk "A" "Lipstick" (10 # 1) 1 3) eq_refl) as HA.
  split; [|split; [|split]].
  - apply HB. reflexivity.
  - destruct (HA 2) as (_ & Hcommit & _).
    destruct Hcommit as [-> _]; [simpl; lia | reflexivity].
  - destruct (HA 3) as (_ & _ & Hrefuse).
    destruct Hrefuse as [-> _]; [simpl; lia | simpl; lia | reflexivity].
  - destruct (HA (-1)) as (Hremove & _).
    destruct Hremove as [-> _]; [simpl; lia | reflexivity].
Defined.

(** ** [maxStock] under [addToCart] *)

(** C8, as stated, fails: the second add succeeds (quantity 1 < stock 5) and
    leaves [maxStock] at 1 instead of setting it to 5. *)
Lemma addToCart_refreshes_maxStock_counterexample :
  findItem "A" (cart (addToCart (productA 1) initial))
  = Some (0%nat, CartItem.mk "A" "Lipstick" (10 # 1) 1 1)
  ∧ staleCart = [CartItem.mk "A" "Lipstick" (10 # 1) 2 1]
  ∧ ¬ Forall (λ item, CartItem.maxStock item = Product.stock (productA 5)) staleCart.
Proof.
  split; [reflexivity|]. split; [reflexivity|].
  intros H. apply Forall_cons in H as [H _]. discriminate H.
Qed.

(** C8, amended.  A successful increment of an existing line raises its
    quantity by 1 and leaves that line's [maxStock] (and every other line's)
    as it was, whatever [product.stock] is now. *)
Theorem addToCart_keeps_maxStock (product : Product.t) (s : POS) i line :
  findItem (Product.id product) (cart s) = Some (i, line) →
  CartItem.quantity line < Product.stock product →
  (∃ line',
      cart (addToCart product s) !! i = Some line'
      ∧ CartItem.quantity line' = CartItem.quantity line + 1
      ∧ CartItem.maxStock line' = CartItem.maxStock line)
  ∧ CartItem.maxStock <$> cart (addToCart product s) = CartItem.maxStock <$> cart s.
Proof.
  intros Hf Hlt. pose proof (findItem_Some _ _ _ _ Hf) as [Hi _].
  rewrite (addToCart_increment _ _ _ _ Hf Hlt). split.
  - eexists. split; [|split].
    + apply list_lookup_insert_eq. by eapply lookup_lt_Some.
    + reflexivity.
    + reflexivity.
  - by apply maxStocks_set_quantity.
Qed.

Lemma addToCart_keeps_maxStock_witness :
  CartItem.maxStock <$> cart (addToCart (productA 5) (addToCart (productA 1) initial))
  = [1].
Proof.
  apply (proj2 (addToCart_keeps_maxStock (productA 5) (addToCart (productA 1) initial)
                  0%nat (CartItem.mk "A" "Lipstick" (10 # 1) 1 1)
                  eq_refl ltac:(simpl; lia))).
Defined.

(** ** Invariants of the cart *)

Lemma Forall_kept {A} (P Q : A → Prop) `{∀ x, Decision (Q x)} (l : list A) :
  Forall P l → Forall P (filter Q l).
Proof.
  rewrite !Forall_forall. intros H0 x Hx.
  apply list_elem_of_filter in Hx as [_ Hx]. by apply H0.
Qed.

Lemma uniqueIds_kept productId (c : list CartItem.t) :
  uniqueIds c → uniqueIds (filter (λ item, CartItem.id item ≠ productId) c).
Proof.
  unfold uniqueIds. intros Hc. eapply sublist_NoDup; [exact Hc|].
  apply fmap_sublist, sublist_filter.
Qed.

(** Each operation keeps the product ids pairwise distinct. *)
Lemma uniqueIds_applyOp op s : uniqueIds (cart s) → uniqueIds (cart (applyOp s op)).
Proof.
  intros Hc. destruct op as [product | productId | productId change]; cbn [applyOp].
  - destruct (findItem (Product.id product) (cart s)) as [[i line]|] eqn:Hf.
    + pose proof (findItem_Some _ _ _ _ Hf) as [Hi _].
      destruct (decide (CartItem.quantity line < Product.stock product)) as [Hlt | Hge].
      * rewrite (addToCart_increment _ _ _ _ Hf Hlt).
        unfold uniqueIds. by rewrite ids_set_quantity.
      * rewrite (addToCart_refused _ _ _ _ Hf); [exact Hc | lia].
    + rewrite (addToCart_new _ _ Hf). unfold uniqueIds in *.
      rewrite fmap_app. apply NoDup_app. split; [exact Hc|]. split.
      * intros x Hx Hin. simpl in Hin. apply list_elem_of_singleton in Hin.
        subst x. by apply findItem_None in Hf.
      * simpl. apply NoDup_singleton.
  - rewrite cart_removeFromCart. by apply uniqueIds_kept.
  - unfold updateCartItemQuantity.
    destruct (findItem productId (cart s)) as [[i item]|] eqn:Hf; [|exact Hc].
    pose proof (findItem_Some _ _ _ _ Hf) as [Hi _].
    repeat case_decide.
    + rewrite cart_removeFromCart. by apply uniqueIds_kept.
    + rewrite cart_updateCartDisplay. simpl.
      unfold uniqueIds. by rewrite ids_set_quantity.
    + exact Hc.
Qed.

(** Each operation keeps every quantity positive. *)
Lemma quantityPositive_applyOp op s :
  quantityPositive (cart s) → quantityPositive (cart (applyOp s op)).
Proof.
  unfold quantityPositive.
  intros Hc. destruct op as [product | productId | productId change]; cbn [applyOp].
  - destruct (findItem (Product.id product) (cart s)) as [[i line]|] eqn:Hf.
    + pose proof (findItem_Some _ _ _ _ Hf) as [Hi _].
      pose proof (Forall_lookup_1 _ _ _ _ Hc Hi) as Hq. simpl in Hq.
      destruct (decide (CartItem.quantity line < Product.stock product)) as [Hlt | Hge].
      * rewrite (addToCart_increment _ _ _ _ Hf Hlt).
        apply Forall_insert; [exact Hc | simpl; lia].
      * rewrite (addToCart_refused _ _ _ _ Hf); [exact Hc | lia].
    + rewrite (addToCart_new _ _ Hf). apply Forall_app. split; [exact Hc|].
      apply Forall_singleton. simpl. lia.
  - rewrite cart_removeFromCart. by apply Forall_kept.
  - unfold updateCartItemQuantity.
    destruct (findItem productId (cart s)) as [[i item]|] eqn:Hf; [|exact Hc].
    repeat case_decide.
    + rewrite cart_removeFromCart. by apply Forall_kept.
    + rewrite cart_updateCartDisplay. simpl.
      apply Forall_insert; [exact Hc | simpl; lia].
    + exact Hc.
Qed.

(** [removeFromCart] and [updateCartItemQuantity] keep every line within
    its [maxStock]. *)
Lemma withinStock_other op s :
  (∀ product, op ≠ AddItem product) →
  quantityWithinStock (cart s) → quantityWithinStock (cart (applyOp s op)).
Proof.
  unfold quantityWithinStock. intros Hop Hc.
  destruct op as [product | productId | productId change]; cbn [applyOp].
  - by destruct (Hop product).
  - rewrite cart_removeFromCart. by apply Forall_kept.
  - unfold updateCartItemQuantity.
    destruct (findItem productId (cart s)) as [[i item]|] eqn:Hf; [|exact Hc].
    repeat case_decide.
    + rewrite cart_removeFromCart. by apply Forall_kept.
    + rewrite cart_updateCartDisplay. simpl.
      apply Forall_insert; [exact Hc | simpl; lia].
    + exact Hc.
Qed.

(** On a cart whose lines are within their [maxStock], [addToCart] leaves
    them so exactly when it is an add of the kind above. *)
Lemma withinStock_add product s :
  quantityWithinStock (cart s) →
  quantityWithinStock (cart (addToCart product s)) ↔ addKeepsBound product (cart s).
Proof.
  unfold quantityWithinStock, addKeepsBound. intros Hc.
  destruct (findItem (Product.id product) (cart s)) as [[i line]|] eqn:Hf.
  - pose proof (findItem_Some _ _ _ _ Hf) as [Hi _].
    pose proof (Forall_lookup_1 _ _ _ _ Hc Hi) as Hq. simpl in Hq.
    destruct (decide (CartItem.quantity line < Product.stock product)) as [Hlt | Hge].
    + rewrite (addToCart_increment _ _ _ _ Hf Hlt). split.
      * intros Hall _.
        assert (Hnew : <[i := CartItem.set_quantity (CartItem.quantity line + 1) line]>
                         (cart s) !! i
                       = Some (CartItem.set_quantity (CartItem.quantity line + 1) line))
          by (apply list_lookup_insert_eq; by eapply lookup_lt_Some).
        pose proof (Forall_lookup_1 _ _ _ _ Hall Hnew) as Hq'. simpl in Hq'. lia.
      * intros Hroom. apply Forall_insert; [exact Hc|]. simpl. specialize (Hroom Hlt). lia.
    + rewrite (addToCart_refused _ _ _ _ Hf) by lia. split; [intros _ Hlt; lia|].
      intros _. exact Hc.
  - rewrite (addToCart_new _ _ Hf), Forall_app, Forall_singleton. simpl. split.
    + intros [_ Hq]. lia.
    + intros Hpos. split; [exact Hc | lia].
Qed.

Lemma withinStock_applyOp op s :
  quantityWithinStock (cart s) →
  quantityWithinStock (cart (applyOp s op))
  ↔ match op with
    | AddItem product => addKeepsBound product (cart s)
    | _ => True
    end.
Proof.
  intros Hc. destruct op as [product | productId | productId change].
  - by apply withinStock_add.
  - split; [done|]. intros _. by apply withinStock_other.
  - split; [done|]. intros _. by apply withinStock_other.
Qed.

(** From a cart within its bounds, the lines stay within their [maxStock]
    after every step of a sequence exactly when all its adds are of the kind
    above. *)
Lemma withinStock_prefixes ops s :
  quantityWithinStock (cart s) →
  (∀ n, quantityWithinStock (cart (run (take n ops) s))) ↔ addsKeepBound ops s.
Proof.
  revert s. induction ops as [|op ops IH]; intros s Hc.
  - split; [done|]. intros _ n. by rewrite take_nil.
  - cbn [addsKeepBound]. split.
    + intros Hall.
      assert (Hstep : quantityWithinStock (cart (applyOp s op))) by exact (Hall 1%nat).
      split; [by apply withinStock_applyOp|].
      apply IH; [exact Hstep|]. intros n. exact (Hall (S n)).
    + intros [Hop Hrest].
      assert (Hstep : quantityWithinStock (cart (applyOp s op)))
        by (by apply withinStock_applyOp).
      intros [|n]; [exact Hc|]. by apply (proj2 (IH _ Hstep)).
Qed.

Lemma positive_unique_run ops s :
  quantityPositive (cart s) → uniqueIds (cart s) →
  quantityPositive (cart (run ops s)) ∧ uniqueIds (cart (run ops s)).
Proof.
  revert s. induction ops as [|op ops IH]; intros s Hq Hu; [by split|].
  simpl. apply IH; [by apply quantityPositive_applyOp | by apply uniqueIds_applyOp].
Qed.

(** C3, as stated, fails on [quantity <= maxStock]: a first add of a product
    whose stock is 0 makes a line with quantity 1 and [maxStock] 0, and a
    second add of a product whose stock has grown from 1 to 5 takes the
    quantity to 2 while [maxStock] stays 1. *)
Lemma cart_invariant_counterexample :
  cart (run [AddItem (productA 0)] initial)
  = [CartItem.mk "A" "Lipstick" (10 # 1) 1 0]
  ∧ ¬ quantityWithinStock (cart (run [AddItem (productA 0)] initial))
  ∧ cart (run [AddItem (productA 1); AddItem (productA 5)] initial)
    = [CartItem.mk "A" "Lipstick" (10 # 1) 2 1]
  ∧ ¬ quantityWithinStock (cart (run [AddItem (productA 1); AddItem (productA 5)] initial)).
Proof.
  split; [reflexivity|]. split; [|split; [reflexivity|]].
  - intros H. apply Forall_inv in H. simpl in H. lia.
  - intros H. apply Forall_inv in H. simpl in H. lia.
Qed.

(** C3, amended.  After every sequence of [addToCart], [removeFromCart] and
    [updateCartItemQuantity] calls on an empty cart, every line has a
    positive quantity and no two lines share a product id.  Every line has
    [quantity <= maxStock] after every step of the sequence exactly when no
    [addToCart] in it makes a new line for a product with stock 0 or less,
    and none raises the quantity of a line that is not below its [maxStock]
    (which takes a [product.stock] above the line's [maxStock]); the lines
    are then within their [maxStock] at the end.  Removals, quantity updates
    and refused adds never take a line past its [maxStock]. *)
Theorem cart_invariant (ops : list CartOp) (s : POS) :
  cart s = [] →
  quantityPositive (cart (run ops s))
  ∧ uniqueIds (cart (run ops s))
  ∧ ((∀ n, quantityWithinStock (cart (run (take n ops) s))) ↔ addsKeepBound ops s)
  ∧ (addsKeepBound ops s → quantityWithinStock (cart (run ops s))).
Proof.
  intros Hs.
  destruct (positive_unique_run ops s) as [Hq Hu].
  { rewrite Hs. constructor. }
  { rewrite Hs. constructor. }
  assert (Hempty : quantityWithinStock (cart s)) by (rewrite Hs; constructor).
  split; [exact Hq|]. split; [exact Hu|]. split.
  - by apply withinStock_prefixes.
  - intros Hadds.
    pose proof (proj2 (withinStock_prefixes ops s Hempty) Hadds (length ops)) as Hend.
    by rewrite firstn_all in Hend.
Qed.

Lemma cart_invariant_witness :
  quantityWithinStock
    (cart (run [AddItem (productA 5); AddItem (productA 3); AddItem (productA 3);
                AddItem (productA 3); UpdateQuantity "A" (-1); RemoveItem "B"] initial)).
Proof.
  apply (cart_invariant
           [AddItem (productA 5); AddItem (productA 3); AddItem (productA 3);
            AddItem (productA 3); UpdateQuantity "A" (-1); RemoveItem "B"]
           initial eq_refl).
  vm_compute. repeat split; intros Hlt; first [reflexivity | discriminate Hlt].
Defined.

(** ** Products without stock *)

(** C7, as stated, fails: [addToCart] called with a product whose stock is 0,
    on a cart without a line for it, appends a line with quantity 1. *)
Lemma addToCart_out_of_stock_counterexample :
  Product.stock (productA 0) <= 0
  ∧ cart (addToCart (productA 0) initial) = [CartItem.mk "A" "Lipstick" (10 # 1) 1 0]
  ∧ toastContainer (addToCart (productA 0) initial) = [(AddedToCart "Lipstick", success)].
Proof. split; [simpl; lia|]. split; reflexivity. Qed.

Lemma listeners_in_stock (filteredProducts : list Product.t) card product :
  card ∈ renderProductGrid filteredProducts →
  listener card = Some product →
  shown card = product ∧ 0 < Product.stock product.
Proof.
  unfold renderProductGrid. intros Hin Hl.
  apply list_elem_of_fmap in Hin as (p & -> & _). simpl in *.
  destruct (decide (0 < Product.stock p)); [|discriminate].
  injection Hl as <-. by split.
Qed.

(** C7, amended.  A product with [stock <= 0] is kept out of the cart by the
    caller: [renderProductGrid] gives its card no click listener, so a click
    on the card changes nothing, and every listener there is passes
    [addToCart] a product with stock above 0.  [addToCart] itself refuses
    such a product only when the cart already has a line for it, with a
    quantity of at least its stock; called for it on a cart without such a
    line, it appends a line with quantity 1. *)
Theorem out_of_stock_filtered_by_caller (product : Product.t) :
  Product.stock product <= 0 →
  (∀ filteredProducts card,
      card ∈ renderProductGrid filteredProducts →
      shown card = product →
      listener card = None ∧ ∀ s, clickCard card s = s)
  ∧ (∀ filteredProducts card p,
      card ∈ renderProductGrid filteredProducts →
      listener card = Some p → 0 < Product.stock p)
  ∧ (∀ s i line,
      findItem (Product.id product) (cart s) = Some (i, line) →
      Product.stock product <= CartItem.quantity line →
      cart (addToCart product s) = cart s)
  ∧ (∀ s,
      findItem (Product.id product) (cart s) = None →
      cart (addToCart product s)
      = cart s ++ [CartItem.mk (Product.id product) (Product.name product)
                     (Product.price product) 1 (Product.stock product)]).
Proof.
  intros Hstock. split; [|split; [|split]].
  - intros filteredProducts card Hin Hshown.
    assert (Hnone : listener card = None).
    { destruct (listener card) as [p|] eqn:Hl; [|reflexivity].
      destruct (listeners_in_stock _ _ _ Hin Hl) as [Hp Hpos].
      rewrite Hshown in Hp. subst p. lia. }
    split; [exact Hnone|]. intros s. unfold clickCard. by rewrite Hnone.
  - intros filteredProducts card p Hin Hl.
    by destruct (listeners_in_stock _ _ _ Hin Hl).
  - intros s i line Hf Hge. by rewrite (addToCart_refused _ _ _ _ Hf Hge).
  - intros s. apply addToCart_new.
Qed.

Lemma out_of_stock_filtered_by_caller_witness :
  (∀ s, clickCard (mkCard (productA 0) None) s = s)
  ∧ cart (addToCart (productA 0) (addToCart (productA 1) initial))
    = cart (addToCart (productA 1) initial).
Proof.
  pose proof (out_of_stock_filtered_by_caller (productA 0) ltac:(simpl; lia))
    as (Hcard & _ & Hline & _).
  split.
  - apply (Hcard [productA 3; productA 0] (mkCard (productA 0) None)).
    + simpl. apply elem_of_cons. right. apply elem_of_cons. by left.
    + reflexivity.
  - apply (Hline (addToCart (productA 1) initial) 0%nat
             (CartItem.mk "A" "Lipstick" (10 # 1) 1 1) eq_refl).
    simpl. lia.
Defined.

(** ** [clearCart] *)

(** C9, as stated, fails: [clearCart] resets neither the discount nor the
    cash field. *)
Lemma clearCart_resets_inputs_counterexample :
  discountInput (clearCart (sale (Some (5 # 1)) (Some (25 # 1)) "cash")) = Some (5 # 1)
  ∧ cashReceived (clearCart (sale (Some (5 # 1)) (Some (25 # 1)) "cash")) = Some (25 # 1)
  ∧ ¬ (orZero (discountInput (clearCart (sale (Some (5 # 1)) (Some (25 # 1)) "cash"))) == 0)%Q
  ∧ ¬ (orZero (cashReceived (clearCart (sale (Some (5 # 1)) (Some (25 # 1)) "cash"))) == 0)%Q.
Proof.
  split; [reflexivity|]. split; [reflexivity|]. split; intros H; discriminate H.
Qed.

Lemma cart_clearCart (s : POS) : cart (clearCart s) = [].
Proof. unfold clearCart. simpl. by rewrite cart_updateCartDisplay. Qed.

(** C9, amended.  [clearCart] empties the cart and leaves the discount and
    cash fields, the payment selection and the customer selection all as
    they were. *)
Theorem clearCart_empties_lines_only (s : POS) :
  cart (clearCart s) = []
  ∧ discountInput (clearCart s) = discountInput s
  ∧ cashReceived (clearCart s) = cashReceived s
  ∧ paymentChecked (clearCart s) = paymentChecked s
  ∧ customerSelect (clearCart s) = customerSelect s.
Proof.
  unfold clearCart. simpl.
  rewrite cart_updateCartDisplay.
  pose proof (inputs_updateCartDisplay (set_cart [] s)) as (Hd & Hc & Hp & Hs).
  rewrite Hd, Hc, Hp, Hs. done.
Qed.

(** ** Totals *)

(** The scenario of one line of 2 at 10.00, no discount, tax rate 0.08. *)
Example totals_scenario :
  (cartSubtotal (updateTotals (sale None None "cash")) == 20 # 1)%Q
  ∧ (cartTax (updateTotals (sale None None "cash")) == 160 # 100)%Q
  ∧ (cartTotal (updateTotals (sale None None "cash")) == 2160 # 100)%Q
  ∧ (calculateTotal (sale None None "cash") == 2160 # 100)%Q.
Proof. repeat split. Qed.

(** C2, as stated, fails: with the same line and a discount of 25.00 (above
    the subtotal of 20.00) the tax shown is -0.40 and the total -5.40, where
    the clamped computation gives 0 for both. *)
Lemma totals_clamped_counterexample :
  (subtotalOf (cart (sale (Some (25 # 1)) None "cash"))
   < orZero (discountInput (sale (Some (25 # 1)) None "cash")))%Q
  ∧ (cartTax (updateTotals (sale (Some (25 # 1)) None "cash")) == - (40 # 100))%Q
  ∧ (cartTotal (updateTotals (sale (Some (25 # 1)) None "cash")) == - (540 # 100))%Q
  ∧ (calculateTotal (sale (Some (25 # 1)) None "cash") == - (540 # 100))%Q
  ∧ (calculateTotal (sale (Some (25 # 1)) None "cash") < 0)%Q
  ∧ spec_computeTotals (20 # 1) (25 # 1) (8 # 100) = ((20 # 1), 0 * (8 # 100), 0 + 0 * (8 # 100))%Q.
Proof. repeat split. Qed.

(** The same two scenarios in binary64: 21.6 without a discount, -5.4 with a
    discount of 25. *)
Example totals_scenario_binary64 :
  Double.calculateTotal [(10, 2)%float] 0 (8 / 100) = (216 / 10)%float
  ∧ Double.calculateTotal [(10, 2)%float] 25 (8 / 100) = (-54 / 10)%float
  ∧ PrimFloat.ltb (Double.calculateTotal [(10, 2)%float] 25 (8 / 100)) 0 = true.
Proof. vm_compute. repeat split. Qed.

(** C2, amended.  For every cart and every discount value the totals use
    the unclamped taxable amount: [taxableAmount = subtotal - discount],
    [tax = taxableAmount * taxRate], [total = taxableAmount + tax], the same
    in [updateTotals] and [calculateTotal].  That is the clamped computation
    whenever [discount <= subtotal]; whenever [discount > subtotal] the
    taxable amount is negative and, for a tax rate of 0 or more, the tax is
    0 or less and the total is negative. *)
Theorem totals_unclamped (s : POS) :
  let subtotal := subtotalOf (cart s) in
  let discount := orZero (discountInput s) in
  let taxableAmount := (subtotal - discount)%Q in
  cartSubtotal (updateTotals s) = subtotal
  ∧ cartTax (updateTotals s) = (taxableAmount * taxRate s)%Q
  ∧ cartTotal (updateTotals s) = (taxableAmount + taxableAmount * taxRate s)%Q
  ∧ calculateTotal s = cartTotal (updateTotals s)
  ∧ ((discount <= subtotal)%Q →
       (taxableAmount == Qmax 0 (subtotal - discount))%Q
       ∧ (cartTax (updateTotals s)
          == snd (fst (spec_computeTotals subtotal discount (taxRate s))))%Q
       ∧ (cartTotal (updateTotals s)
          == snd (spec_computeTotals subtotal discount (taxRate s)))%Q)
  ∧ ((subtotal < discount)%Q →
       (taxableAmount < 0)%Q
       ∧ ((0 <= taxRate s)%Q →
            (cartTax (updateTotals s) <= 0)%Q ∧ (calculateTotal s < 0)%Q)).
Proof.
  intros subtotal discount taxableAmount.
  split; [reflexivity|]. split; [reflexivity|]. split; [reflexivity|].
  split; [reflexivity|]. split.
  - intros Hle.
    assert (Hmax : (Qmax 0 (subtotal - discount) == taxableAmount)%Q).
    { apply Q.max_r. unfold taxableAmount. lra. }
    split; [by symmetry|].
    unfold spec_computeTotals. cbn [fst snd updateTotals].
    change (cartTax (updateTotals s)) with (taxableAmount * taxRate s)%Q.
    change (cartTotal (updateTotals s))
      with (taxableAmount + taxableAmount * taxRate s)%Q.
    rewrite Hmax. split; reflexivity.
  - intros Hlt.
    assert (Hneg : (taxableAmount < 0)%Q) by (unfold taxableAmount; lra).
    split; [exact Hneg|]. intros Hrate.
    change (cartTax (updateTotals s)) with (taxableAmount * taxRate s)%Q.
    change (calculateTotal s) with (taxableAmount + taxableAmount * taxRate s)%Q.
    assert (Hprod : (taxableAmount * taxRate s <= 0)%Q).
    { assert (0 <= (- taxableAmount) * taxRate s)%Q; [|lra].
      apply Qmult_le_0_compat; lra. }
    split; [exact Hprod | lra].
Qed.

Lemma totals_unclamped_witness :
  (calculateTotal (sale (Some (25 # 1)) None "cash") < 0)%Q
  ∧ (cartTotal (updateTotals (sale (Some (5 # 1)) None "cash"))
     == snd (spec_computeTotals (20 # 1) (5 # 1) (8 # 100)))%Q.
Proof.
  split.
  - destruct (totals_unclamped (sale (Some (25 # 1)) None "cash"))
      as (_ & _ & _ & _ & _ & Hneg).
    destruct Hneg as [_ Hneg]; [reflexivity|].
    destruct Hneg as [_ Hneg]; [discriminate|]. exact Hneg.
  - destruct (totals_unclamped (sale (Some (5 # 1)) None "cash"))
      as (_ & _ & _ & _ & Hpos & _).
    destruct Hpos as (_ & _ & Hpos); [discriminate|]. exact Hpos.
Defined.

(** ** Checkout: validation *)

(** C6.  [checkout()] on a cart without lines stops with the "Cart is empty"
    warning; on a cart with lines, paid in cash with less cash than the
    total, it stops with the "Insufficient cash amount" warning.  In both
    cases no request is handed to [apiRequest] and the state is as before but
    for the warning shown: cart, inputs and requests sent are unchanged. *)
Theorem checkout_validation (b : Backend) (s : POS) :
  (cart s = [] →
     checkout_submit s = (showToast CartIsEmpty warning s, None)
     ∧ checkout b s = showToast CartIsEmpty warning s
     ∧ cart (checkout b s) = cart s
     ∧ sent (checkout b s) = sent s
     ∧ inFlight (checkout b s) = inFlight s)
  ∧ (cart s ≠ [] →
     orText "cash" (paymentChecked s) = "cash" →
     (orZero (cashReceived s) < calculateTotal s)%Q →
     checkout_submit s = (showToast InsufficientCash warning s, None)
     ∧ checkout b s = showToast InsufficientCash warning s
     ∧ cart (checkout b s) = cart s
     ∧ sent (checkout b s) = sent s
     ∧ inFlight (checkout b s) = inFlight s).
Proof.
  split.
  - intros Hempty.
    assert (Hsub : checkout_submit s = (showToast CartIsEmpty warning s, None)).
    { unfold checkout_submit. by rewrite Hempty. }
    unfold checkout. rewrite Hsub. done.
  - intros Hlines Hcash Hlt.
    assert (Hsub : checkout_submit s = (showToast InsufficientCash warning s, None)).
    { unfold checkout_submit. destruct (cart s) as [|item rest]; [done|].
      rewrite Hcash.
      destruct (decide (_ ∧ _)) as [_ | Hn]; [reflexivity|].
      exfalso. apply Hn. split; [reflexivity|].
      destruct (decide ("cash" = "cash")) as [_ | Hne]; [exact Hlt | done]. }
    unfold checkout. rewrite Hsub. done.
Qed.

Lemma checkout_validation_witness :
  checkout accepting initial = showToast CartIsEmpty warning initial
  ∧ checkout accepting (sale None (Some (20 # 1)) "cash")
    = showToast InsufficientCash warning (sale None (Some (20 # 1)) "cash").
Proof.
  split.
  - apply (proj1 (checkout_validation accepting initial) eq_refl).
  - apply (proj2 (checkout_validation accepting (sale None (Some (20 # 1)) "cash"))).
    + discriminate.
    + reflexivity.
    + reflexivity.
Defined.

(** ** Checkout: the answer *)

Lemma checkout_submit_issued s s1 transactionData :
  checkout_submit s = (s1, Some transactionData) →
  cart s ≠ []
  ∧ s1 = set_network (sent s ++ [transactionData]) (S (inFlight s)) (showLoading s).
Proof.
  unfold checkout_submit. destruct (cart s) as [|item rest] eqn:Hc; [discriminate|].
  case_decide; [discriminate|].
  intros Heq. injection Heq as <- <-. split; [discriminate | reflexivity].
Qed.

Lemma cart_loadProducts b s : cart (loadProducts b s) = cart s.
Proof. unfold loadProducts. destruct (inventory b); reflexivity. Qed.

(** Whatever state the answer finds: the cart is emptied on success and is
    not touched otherwise. *)
Lemma cart_checkout_settle b reply s :
  cart (checkout_settle b reply s) = if succeeded reply then [] else cart s.
Proof.
  unfold checkout_settle, checkout_try.
  destruct reply as [response | message]; simpl.
  - destruct (Response.success response); simpl; [|reflexivity].
    rewrite cart_loadProducts. apply cart_clearCart.
  - reflexivity.
Qed.

(** C1.  Once [checkout()] has submitted a transaction, it empties the cart
    exactly when the submission reports success: an answer with
    [success = true] leaves the cart empty, and a failure of either kind (an
    error thrown by the request, or an answer with [success = false]) leaves
    the lines of the cart exactly as they were before the call. *)
Theorem checkout_clears_cart_iff_success (b : Backend) (s s1 : POS) transactionData :
  checkout_submit s = (s1, Some transactionData) →
  (∀ response,
      transactions b transactionData = Resolved response →
      Response.success response = true → cart (checkout b s) = [])
  ∧ (∀ response,
      transactions b transactionData = Resolved response →
      Response.success response = false → cart (checkout b s) = cart s)
  ∧ (∀ message,
      transactions b transactionData = Thrown message → cart (checkout b s) = cart s)
  ∧ (cart (checkout b s) = [] ↔ succeeded (transactions b transactionData) = true).
Proof.
  intros Hsub. destruct (checkout_submit_issued _ _ _ Hsub) as [Hlines Hs1].
  assert (Hcart : cart (checkout b s)
                  = if succeeded (transactions b transactionData) then [] else cart s).
  { unfold checkout. rewrite Hsub, cart_checkout_settle. by rewrite Hs1. }
  split; [|split; [|split]].
  - intros response Hr Hok. rewrite Hcart, Hr. simpl. by rewrite Hok.
  - intros response Hr Hko. rewrite Hcart, Hr. simpl. by rewrite Hko.
  - intros message Hr. rewrite Hcart, Hr. reflexivity.
  - rewrite Hcart. destruct (succeeded (transactions b transactionData)).
    + done.
    + split; [intros Hnil; by destruct Hlines | discriminate].
Qed.

Lemma checkout_clears_cart_iff_success_witness :
  cart (checkout accepting (sale None (Some (25 # 1)) "cash")) = []
  ∧ cart (checkout rejecting (sale None (Some (25 # 1)) "cash"))
    = cart (sale None (Some (25 # 1)) "cash")
  ∧ cart (checkout unreachable (sale None (Some (25 # 1)) "cash"))
    = cart (sale None (Some (25 # 1)) "cash").
Proof.
  pose proof (λ b,
      checkout_clears_cart_iff_success b (sale None (Some (25 # 1)) "cash")
        _ _ eq_refl) as H.
  split; [|split].
  - destruct (H accepting) as (Hok & _). by eapply Hok.
  - destruct (H rejecting) as (_ & Hko & _). by eapply Hko.
  - destruct (H unreachable) as (_ & _ & Hthrown & _). by eapply Hthrown.
Defined.

(** The change shown for 25.00 in cash against a total of 21.60. *)
Example changeDue_scenario :
  (changeDue (updateTotals (sale None (Some (25 # 1)) "cash")) == 340 # 100)%Q.
Proof. reflexivity. Qed.

(** ** Checkout: calls in flight *)

(** C10, as stated, fails: a second [checkout()] during the [await] of the
    first passes the same checks and hands [apiRequest] a second request, so
    two submissions are outstanding and no warning is shown.  The same
    happens through the page: lowering a quantity while the first request is
    outstanding re-renders the cart, which enables the checkout button
    again, and the next click on it submits. *)
Lemma checkout_in_progress_counterexample :
  checkout_submit paidSale = (oneInFlight, Some paidRequest)
  ∧ inFlight oneInFlight = 1%nat
  ∧ checkout_submit oneInFlight = (twoInFlight, Some paidRequest)
  ∧ inFlight twoInFlight = 2%nat
  ∧ sent twoInFlight = [paidRequest; paidRequest]
  ∧ toastContainer twoInFlight = []
  ∧ checkoutBtn oneInFlight = Some true
  ∧ checkoutBtn (updateCartItemQuantity "A" (-1) oneInFlight) = Some false
  ∧ inFlight (clickCheckoutBtn (updateCartItemQuantity "A" (-1) oneInFlight)).1 = 2%nat
  ∧ length (sent (clickCheckoutBtn (updateCartItemQuantity "A" (-1) oneInFlight)).1)
    = 2%nat.
Proof. repeat split. Qed.

Lemma disabled_showLoading s :
  is_Some (checkoutBtn s) → checkoutBtn (showLoading s) = Some true.
Proof. intros [d Hd]. unfold showLoading, set_disabled. simpl. by rewrite Hd. Qed.

(** C10, amended.  [checkout()] has no guard against a call in flight: with
    lines in the cart and the cash check passed, it hands [apiRequest] one
    more request, however many are outstanding already.  The only guard sits
    on the page: submitting disables the checkout button, if the page has
    one, so that a click on it right afterwards starts nothing. *)
Theorem checkout_not_guarded (s : POS) :
  cart s ≠ [] →
  ¬ (orText "cash" (paymentChecked s) = "cash"
     ∧ (orZero (cashReceived s) < calculateTotal s)%Q) →
  ∃ transactionData,
    checkout_submit s
    = (set_network (sent s ++ [transactionData]) (S (inFlight s)) (showLoading s),
       Some transactionData)
    ∧ inFlight (checkout_submit s).1 = S (inFlight s)
    ∧ sent (checkout_submit s).1 = sent s ++ [transactionData]
    ∧ toastContainer (checkout_submit s).1 = toastContainer s
    ∧ (is_Some (checkoutBtn s) →
         checkoutBtn (checkout_submit s).1 = Some true
         ∧ clickCheckoutBtn (checkout_submit s).1 = ((checkout_submit s).1, None)).
Proof.
  intros Hlines Hfunds.
  destruct (checkout_submit s) as [s1 [transactionData|]] eqn:Hsub.
  - destruct (checkout_submit_issued _ _ _ Hsub) as [_ ->].
    exists transactionData. split; [reflexivity|]. simpl.
    split; [reflexivity|]. split; [reflexivity|]. split; [reflexivity|].
    intros Hbtn. pose proof (disabled_showLoading s Hbtn) as Hd.
    split; [exact Hd|]. unfold clickCheckoutBtn. simpl.
    unfold showLoading in Hd. simpl in Hd. by rewrite Hd.
  - exfalso. unfold checkout_submit in Hsub.
    destruct (cart s) as [|item rest]; [done|].
    destruct (decide (_ ∧ _)) as [[Hpm Hlt] | _]; [|discriminate].
    apply Hfunds. split; [exact Hpm|].
    by rewrite (decide_True (P := orText "cash" (paymentChecked s) = "cash"))
      in Hlt.
Qed.

Lemma checkout_not_guarded_witness :
  inFlight (checkout_submit oneInFlight).1 = 2%nat.
Proof.
  destruct (checkout_not_guarded oneInFlight) as (transactionData & _ & Hn & _).
  - discriminate.
  - intros [_ Hlt]. revert Hlt. apply Qle_not_lt. discriminate.
  - exact Hn.
Defined.

(** * Further properties of the page *)

(** ** Removing a line *)

Lemma filter_all {A} (P : A → Prop) `{∀ x, Decision (P x)} (l : list A) :
  Forall P l → filter P l = l.
Proof.
  induction 1 as [|x l Hx _ IH]; [reflexivity|].
  rewrite filter_cons_True by exact Hx. by rewrite IH.
Qed.

(** X1.  [removeFromCart(productId)] leaves no line with that id, keeps
    every other line, in the order they had, and a second call changes
    nothing more in the cart. *)
Theorem removeFromCart_removes (productId : string) (s : POS) :
  (productId ∉ CartItem.id <$> cart (removeFromCart productId s))
  ∧ (∀ item, item ∈ cart (removeFromCart productId s)
             ↔ item ∈ cart s ∧ CartItem.id item ≠ productId)
  ∧ cart (removeFromCart productId s) `sublist_of` cart s
  ∧ cart (removeFromCart productId (removeFromCart productId s))
    = cart (removeFromCart productId s).
Proof.
  rewrite !cart_removeFromCart. split; [apply removed_id_gone|]. split; [|split].
  - intros item. rewrite list_elem_of_filter. tauto.
  - apply sublist_filter.
  - rewrite list_filter_filter. apply list_filter_iff. intros item. tauto.
Qed.

(** X2.  [removeFromCart] does not look whether the id is in the cart: for
    an id without a line the cart keeps all its lines, and the "Item removed
    from cart" toast is shown all the same. *)
Theorem removeFromCart_absent (productId : string) (s : POS) :
  findItem productId (cart s) = None →
  cart (removeFromCart productId s) = cart s
  ∧ toastContainer (removeFromCart productId s)
    = toastContainer s ++ [(ItemRemoved, info)].
Proof.
  intros Hf. split.
  - rewrite cart_removeFromCart. apply filter_all.
    apply findItem_None in Hf. apply Forall_forall. intros item Hin Heq.
    apply Hf. apply list_elem_of_fmap. by exists item.
  - unfold removeFromCart. simpl. by rewrite toasts_updateCartDisplay.
Qed.

Lemma removeFromCart_absent_witness :
  cart (removeFromCart "B" (addToCart (productA 3) initial))
  = cart (addToCart (productA 3) initial)
  ∧ toastContainer (removeFromCart "B" (addToCart (productA 3) initial))
    = [(AddedToCart "Lipstick", success); (ItemRemoved, info)].
Proof.
  apply (removeFromCart_absent "B" (addToCart (productA 3) initial)). reflexivity.
Defined.

(** ** Change due *)

(** X3.  The change shown by [updateChangeDue] (and so by [updateTotals]) is
    never negative: it is the cash received less the total when the cash
    covers the total, and 0 when it does not. *)
Theorem changeDue_never_negative (s : POS) :
  (0 <= changeDue (updateChangeDue s))%Q
  ∧ changeDue (updateTotals s) = changeDue (updateChangeDue s)
  ∧ ((calculateTotal s <= orZero (cashReceived s))%Q →
       (changeDue (updateChangeDue s) == orZero (cashReceived s) - calculateTotal s)%Q)
  ∧ ((orZero (cashReceived s) < calculateTotal s)%Q →
       (changeDue (updateChangeDue s) == 0)%Q).
Proof.
  change (changeDue (updateChangeDue s))
    with (Qmax 0 (orZero (cashReceived s) - calculateTotal s)).
  split; [apply Q.le_max_l|]. split; [reflexivity|]. split.
  - intros Hle. apply Q.max_r. lra.
  - intros Hlt. apply Q.max_l. lra.
Qed.

Lemma changeDue_never_negative_witness :
  (changeDue (updateChangeDue (sale None (Some (25 # 1)) "cash")) == 340 # 100)%Q
  ∧ (changeDue (updateChangeDue (sale None (Some (20 # 1)) "cash")) == 0)%Q.
Proof.
  split.
  - rewrite (proj1 (proj2 (proj2 (changeDue_never_negative
                                    (sale None (Some (25 # 1)) "cash"))))).
    + reflexivity.
    + discriminate.
  - apply (proj2 (proj2 (proj2 (changeDue_never_negative
                                  (sale None (Some (20 # 1)) "cash"))))).
    reflexivity.
Defined.

(** ** The page follows the cart *)

Lemma inSync_updateCartDisplay (s : POS) :
  is_Some (cartItems s) → inSync (updateCartDisplay s).
Proof.
  intros [rows Hrows]. unfold updateCartDisplay. rewrite Hrows.
  destruct (cart s) as [|item rest] eqn:Hc;
    unfold inSync, updateTotals, updateChangeDue, calculateTotal; simpl; rewrite ?Hc.
  - split; [reflexivity|]. split; [|done].
    intros d. destruct (checkoutBtn s); [|discriminate]. by intros [= <-].
  - split; [reflexivity|]. split; [|done].
    intros d. destruct (checkoutBtn s); [|discriminate]. by intros [= <-].
Qed.

Lemma inSync_showToast m t (s : POS) : inSync s → inSync (showToast m t s).
Proof. unfold inSync. simpl. done. Qed.

Lemma inSync_applyOp op (s : POS) : inSync s → inSync (applyOp s op).
Proof.
  intros Hs. assert (Hrows : is_Some (cartItems s)) by (destruct Hs as [-> _]; eauto).
  destruct op as [product | productId | productId change]; cbn [applyOp].
  - unfold addToCart.
    destruct (findItem (Product.id product) (cart s)) as [[i line]|].
    + case_decide.
      * by apply inSync_updateCartDisplay.
      * by apply inSync_showToast.
    + by apply inSync_updateCartDisplay.
  - unfold removeFromCart. apply inSync_showToast. by apply inSync_updateCartDisplay.
  - unfold updateCartItemQuantity.
    destruct (findItem productId (cart s)) as [[i item]|]; [|exact Hs].
    repeat case_decide.
    + unfold removeFromCart. apply inSync_showToast. by apply inSync_updateCartDisplay.
    + by apply inSync_updateCartDisplay.
    + by apply inSync_showToast.
Qed.

(** X4.  The page follows the cart.  Every re-rendering by
    [updateCartDisplay], on a page that has the [#cartItems] element, shows
    the lines of the cart, disables the checkout button exactly when the
    cart is empty and shows the subtotal, total and change of the cart; and
    every sequence of [addToCart], [removeFromCart] and
    [updateCartItemQuantity] calls keeps the page that way, the refused
    calls included. *)
Theorem page_follows_cart (ops : list CartOp) (s : POS) :
  (is_Some (cartItems s) → inSync (updateCartDisplay s))
  ∧ (inSync s → inSync (run ops s)).
Proof.
  split; [apply inSync_updateCartDisplay|].
  revert s. induction ops as [|op ops IH]; intros s Hs; [exact Hs|].
  simpl. apply IH. by apply inSync_applyOp.
Qed.

Lemma page_follows_cart_witness :
  inSync (run [AddItem (productA 2); AddItem (productA 2); AddItem (productA 2);
               UpdateQuantity "A" (-1); RemoveItem "A"] (updateCartDisplay initial)).
Proof.
  apply (page_follows_cart
           [AddItem (productA 2); AddItem (productA 2); AddItem (productA 2);
            UpdateQuantity "A" (-1); RemoveItem "A"] (updateCartDisplay initial)).
  apply (page_follows_cart [] initial). simpl. eauto.
Defined.

(** ** After the answer *)

Lemma button_updateCartDisplay (s : POS) :
  is_Some (checkoutBtn (updateCartDisplay s)) ↔ is_Some (checkoutBtn s).
Proof.
  unfold updateCartDisplay. destruct (cartItems s); [|done].
  destruct (cart s); simpl; destruct (checkoutBtn s); split; intros [d Hd]; eauto;
    discriminate.
Qed.

Lemma button_checkout_settle b reply (s : POS) :
  is_Some (checkoutBtn s) → checkoutBtn (checkout_settle b reply s) = Some false.
Proof.
  intros Hbtn. unfold checkout_settle.
  destruct (checkout_try b reply _) as [s1 thrown] eqn:Htry.
  assert (Hs1 : is_Some (checkoutBtn s1)).
  { unfold checkout_try in Htry. destruct reply as [response | message].
    - destruct (Response.success response).
      + injection Htry as <- _. unfold loadProducts.
        assert (Hclear : is_Some (checkoutBtn (clearCart
                  (if decide (0 < Response.change_due response)%Q
                   then showToast (ChangeDue (Response.change_due response)) info
                          (showToast TransactionCompleted success
                             (set_network (sent s) (pred (inFlight s)) s))
                   else showToast TransactionCompleted success
                          (set_network (sent s) (pred (inFlight s)) s))))).
        { unfold clearCart. simpl. apply button_updateCartDisplay.
          case_decide; exact Hbtn. }
        destruct (inventory b); exact Hclear.
      + injection Htry as <- _. exact Hbtn.
    - injection Htry as <- _. exact Hbtn. }
  destruct Hs1 as [d Hd].
  destruct thrown; unfold hideLoading, set_disabled; simpl; by rewrite Hd.
Qed.

(** X5.  After a successful checkout the button is left enabled over an
    empty cart: [clearCart] disables it, and the [hideLoading] of the
    [finally] block, which runs last, enables it again.  A click on it then
    only brings the "Cart is empty" warning; nothing is sent. *)
Theorem checkout_success_enables_button (b : Backend) (s s1 : POS) transactionData response :
  checkout_submit s = (s1, Some transactionData) →
  transactions b transactionData = Resolved response →
  Response.success response = true →
  is_Some (checkoutBtn s) →
  cart (checkout b s) = []
  ∧ checkoutBtn (checkout b s) = Some false
  ∧ ¬ inSync (checkout b s)
  ∧ clickCheckoutBtn (checkout b s)
    = (showToast CartIsEmpty warning (checkout b s), None).
Proof.
  intros Hsub Hreply Hok Hbtn.
  destruct (checkout_submit_issued _ _ _ Hsub) as [_ Hs1].
  assert (Hcart : cart (checkout b s) = []).
  { unfold checkout. rewrite Hsub, cart_checkout_settle, Hreply. simpl. by rewrite Hok. }
  assert (Hen : checkoutBtn (checkout b s) = Some false).
  { unfold checkout. rewrite Hsub. apply button_checkout_settle.
    rewrite Hs1. simpl. destruct Hbtn as [d ->]. eauto. }
  split; [exact Hcart|]. split; [exact Hen|]. split.
  - intros (_ & Hd & _). specialize (Hd false Hen). rewrite Hcart in Hd. discriminate.
  - unfold clickCheckoutBtn. rewrite Hen. unfold checkout_submit. by rewrite Hcart.
Qed.

Lemma checkout_success_enables_button_witness :
  checkoutBtn (checkout accepting paidSale) = Some false
  ∧ cart (checkout accepting paidSale) = [].
Proof.
  destruct (checkout_success_enables_button accepting paidSale oneInFlight paidRequest
              (Response.mk true (34 # 10) None) eq_refl eq_refl eq_refl)
    as (Hcart & Hbtn & _).
  - simpl. eauto.
  - split; [exact Hbtn | exact Hcart].
Defined.

(** ** The transaction request *)

Lemma checkout_submit_request s s1 transactionData :
  checkout_submit s = (s1, Some transactionData) →
  transactionData
  = TransactionData.mk (soldItem <$> cart s) (orText "" (customerSelect s))
      (orText "cash" (paymentChecked s))
      (if decide (orText "cash" (paymentChecked s) = "cash")
       then orZero (cashReceived s) else 0%Q)
      (if decide (orText "cash" (paymentChecked s) = "card")
       then calculateTotal s else 0%Q)
      (orZero (discountInput s)) (orText "Staff" (currentUserName s))
  ∧ ¬ (orText "cash" (paymentChecked s) = "cash"
       ∧ (orZero (cashReceived s) < calculateTotal s)%Q).
Proof.
  unfold checkout_submit. destruct (cart s) as [|item rest] eqn:Hc; [discriminate|].
  destruct (decide (_ ∧ _)) as [|Hn]; [discriminate|].
  intros Heq. injection Heq as _ <-. split; [reflexivity|].
  intros [Hpm Hlt]. apply Hn. split; [exact Hpm|].
  by rewrite (decide_True (P := orText "cash" (paymentChecked s) = "cash")).
Qed.

(** X6.  Every request [checkout()] submits lists the lines of the cart one
    for one, in order, with their quantities.  Paid in cash it carries the
    cash received, which covers the total, and no card amount; paid by card
    it carries the total as card amount and no cash amount, whatever the
    cash field holds; with any other payment value both amounts are 0. *)
Theorem checkout_request_amounts (s s1 : POS) transactionData :
  checkout_submit s = (s1, Some transactionData) →
  TransactionData.items transactionData = soldItem <$> cart s
  ∧ SoldItem.quantity <$> TransactionData.items transactionData
    = CartItem.quantity <$> cart s
  ∧ TransactionData.discount transactionData = orZero (discountInput s)
  ∧ (TransactionData.payment_method transactionData = "cash" →
       TransactionData.cash_amount transactionData = orZero (cashReceived s)
       ∧ (calculateTotal s <= TransactionData.cash_amount transactionData)%Q
       ∧ TransactionData.card_amount transactionData = 0%Q)
  ∧ (TransactionData.payment_method transactionData = "card" →
       TransactionData.cash_amount transactionData = 0%Q
       ∧ TransactionData.card_amount transactionData = calculateTotal s)
  ∧ (TransactionData.payment_method transactionData ≠ "cash" →
     TransactionData.payment_method transactionData ≠ "card" →
       TransactionData.cash_amount transactionData = 0%Q
       ∧ TransactionData.card_amount transactionData = 0%Q).
Proof.
  intros Hsub. destruct (checkout_submit_request _ _ _ Hsub) as [-> Hfunds]. simpl.
  split; [reflexivity|]. split.
  { rewrite <- list_fmap_compose. reflexivity. }
  split; [reflexivity|]. split; [|split].
  - intros Hpm. rewrite Hpm in *. simpl. split; [reflexivity|]. split; [|reflexivity].
    apply Qnot_lt_le. intros Hlt. by apply Hfunds.
  - intros Hpm. rewrite Hpm. simpl. by split.
  - intros Hcash Hcard. by rewrite !decide_False.
Qed.

Lemma checkout_request_amounts_witness :
  TransactionData.cash_amount paidRequest = 25 # 1
  ∧ TransactionData.card_amount paidRequest = 0%Q.
Proof.
  destruct (checkout_request_amounts paidSale oneInFlight paidRequest eq_refl)
    as (_ & _ & _ & Hcash & _).
  destruct (Hcash eq_refl) as (Hc & _ & Hd). split; [exact Hc | exact Hd].
Defined.

Lemma calculateTotal_negative (s : POS) :
  (subtotalOf (cart s) < orZero (discountInput s))%Q →
  (0 <= taxRate s)%Q →
  (calculateTotal s < 0)%Q.
Proof.
  intros Hlt Hrate. unfold calculateTotal.
  assert (0 <= (orZero (discountInput s) - subtotalOf (cart s)) * taxRate s)%Q
    by (apply Qmult_le_0_compat; lra).
  lra.
Qed.

(** X7.  A discount above the subtotal lets a cash sale through without
    cash: the total is then negative, so with a tax rate of 0 or more and a
    cash field that is empty or holds 0 or more, [checkout()] on a cart with
    lines submits a request. *)
Theorem over_discount_needs_no_cash (s : POS) :
  cart s ≠ [] →
  (subtotalOf (cart s) < orZero (discountInput s))%Q →
  (0 <= taxRate s)%Q →
  (0 <= orZero (cashReceived s))%Q →
  ∃ transactionData,
    (checkout_submit s).2 = Some transactionData
    ∧ TransactionData.discount transactionData = orZero (discountInput s)
    ∧ TransactionData.items transactionData = soldItem <$> cart s.
Proof.
  intros Hlines Hdisc Hrate Hcash.
  pose proof (calculateTotal_negative s Hdisc Hrate) as Hneg.
  unfold checkout_submit. destruct (cart s) as [|item rest] eqn:Hc; [done|].
  destruct (decide (_ ∧ _)) as [[Hpm Hlt] | _].
  - exfalso.
    rewrite (decide_True (P := orText "cash" (paymentChecked s) = "cash")) in Hlt
      by exact Hpm.
    lra.
  - eexists. simpl. split; [reflexivity|]. split; reflexivity.
Qed.

Lemma over_discount_needs_no_cash_witness :
  is_Some (checkout_submit (sale (Some (25 # 1)) None "cash")).2.
Proof.
  destruct (over_discount_needs_no_cash (sale (Some (25 # 1)) None "cash"))
    as (transactionData & Hsome & _).
  - discriminate.
  - reflexivity.
  - discriminate.
  - discriminate.
  - rewrite Hsome. eauto.
Defined.

(** ** A failed submission *)

Lemma orText_nonempty dflt v : dflt ≠ "" → orText dflt v ≠ "".
Proof.
  intros Hd. unfold orText. destruct v as [x|]; [|exact Hd]. by case_decide.
Qed.

(** X8.  A failed submission, of either kind and in whatever state the
    answer finds the page, shows exactly one more toast, an error toast with
    a text that is never empty, and leaves the cart, the product list and
    the discount, cash, payment and customer inputs as they are, ready for
    another attempt. *)
Theorem checkout_failure_keeps_inputs (b : Backend) (reply : ApiResult Response.t) (s : POS) :
  succeeded reply = false →
  (∃ text,
      text ≠ ""
      ∧ toastContainer (checkout_settle b reply s)
        = toastContainer s ++ [(ErrorText text, error)])
  ∧ cart (checkout_settle b reply s) = cart s
  ∧ products (checkout_settle b reply s) = products s
  ∧ discountInput (checkout_settle b reply s) = discountInput s
  ∧ cashReceived (checkout_settle b reply s) = cashReceived s
  ∧ paymentChecked (checkout_settle b reply s) = paymentChecked s
  ∧ customerSelect (checkout_settle b reply s) = customerSelect s.
Proof.
  intros Hfail. unfold checkout_settle, checkout_try.
  destruct reply as [response | message]; cbn -[orText] in *.
  - rewrite Hfail. cbn -[orText]. split; [|done].
    eexists. split; [|reflexivity]. by apply orText_nonempty.
  - split; [|done]. eexists. split; [|reflexivity]. by apply orText_nonempty.
Qed.

Lemma checkout_failure_keeps_inputs_witness :
  cart (checkout_settle unreachable (Thrown "Failed to fetch") oneInFlight)
  = [CartItem.mk "A" "Lipstick" (10 # 1) 2 5]
  ∧ cashReceived (checkout_settle rejecting
                    (Resolved (Response.mk false 0 None)) oneInFlight)
    = Some (25 # 1).
Proof.
  split.
  - apply (proj1 (proj2 (checkout_failure_keeps_inputs unreachable
                           (Thrown "Failed to fetch") oneInFlight eq_refl))).
  - apply (checkout_failure_keeps_inputs rejecting
             (Resolved (Response.mk false 0 None)) oneInFlight eq_refl).
Defined.

(** ** Store configuration *)

Lemma orDefaultRate_nonzero v : ¬ (orDefaultRate v == 0)%Q.
Proof.
  unfold orDefaultRate. destruct v as [q|]; [|discriminate].
  destruct (Qeq_bool q 0) eqn:Hq; [discriminate|].
  by apply Qeq_bool_neq.
Qed.

(** X9.  [loadStoreConfig] cannot set a tax rate of 0: a configured rate of
    0, like one that does not parse, gives 0.08, and any other rate is taken
    as configured.  Whatever the answer, a tax rate and a currency symbol
    that were set stay set (not 0, not empty), and the cart is not touched. *)
Theorem loadStoreConfig_tax_rate (reply : ApiResult (option StoreConfig.t)) (shop : Shop) :
  (∀ config,
      reply = Resolved (Some config) →
      (StoreConfig.tax_rate config = None
       ∨ ∃ q, StoreConfig.tax_rate config = Some q ∧ (q == 0)%Q) →
      taxRate (manager (loadStoreConfig reply shop)) = 8 # 100)
  ∧ (∀ config q,
      reply = Resolved (Some config) →
      StoreConfig.tax_rate config = Some q → ¬ (q == 0)%Q →
      taxRate (manager (loadStoreConfig reply shop)) = q)
  ∧ (¬ (taxRate (manager shop) == 0)%Q →
     ¬ (taxRate (manager (loadStoreConfig reply shop)) == 0)%Q)
  ∧ (currencySymbol shop ≠ "" → currencySymbol (loadStoreConfig reply shop) ≠ "")
  ∧ cart (manager (loadStoreConfig reply shop)) = cart (manager shop).
Proof.
  split; [|split; [|split; [|split]]].
  - intros config -> Hrate. simpl. unfold orDefaultRate.
    destruct Hrate as [-> | (q & -> & Hq)]; [reflexivity|].
    by rewrite (proj2 (Qeq_bool_iff q 0) Hq).
  - intros config q -> Hrate Hq. simpl. rewrite Hrate. simpl.
    destruct (Qeq_bool q 0) eqn:Hb; [|reflexivity].
    by apply Qeq_bool_iff in Hb.
  - intros Hset. destruct reply as [[config|] | message]; simpl; [|exact Hset..].
    apply orDefaultRate_nonzero.
  - intros Hset. destruct reply as [[config|] | message]; simpl; [|exact Hset..].
    by apply orText_nonempty.
  - destruct reply as [[config|] | message]; reflexivity.
Qed.

Lemma loadStoreConfig_tax_rate_witness :
  taxRate (manager (loadStoreConfig
                      (Resolved (Some (StoreConfig.mk (Some 0%Q) (Some "kr") None)))
                      (mkShop initial "$" None))) = 8 # 100
  ∧ taxRate (manager (loadStoreConfig
                        (Resolved (Some (StoreConfig.mk (Some (19 # 100)) (Some "kr") None)))
                        (mkShop initial "$" None))) = 19 # 100.
Proof.
  split.
  - eapply (proj1 (loadStoreConfig_tax_rate _ (mkShop initial "$" None)));
      [reflexivity|]. right. exists 0%Q. split; reflexivity.
  - eapply (proj1 (proj2 (loadStoreConfig_tax_rate _ (mkShop initial "$" None))));
      [reflexivity | reflexivity | discriminate].
Defined.

(** ** The stock column of the inventory table *)

(** X10.  In the rows of [loadInventoryTable] the stock cell never gets the
    class [out]: the test for [low] comes first and covers it.  A product
    without stock is labelled "Out of Stock" and styled [low]; the class is
    [low] for every stock up to 5 and empty above, where the label is "In
    Stock". *)
Theorem stockStatusClass_never_out (stock : Z) :
  stockStatusClass stock ≠ "out"
  ∧ (stock <= 0 →
       stockStatusClass stock = "low" ∧ stockStatusLabel stock = "Out of Stock")
  ∧ (0 < stock <= 5 →
       stockStatusClass stock = "low" ∧ stockStatusLabel stock = "Low Stock")
  ∧ (5 < stock →
       stockStatusClass stock = "" ∧ stockStatusLabel stock = "In Stock").
Proof.
  unfold stockStatusClass, stockStatusLabel.
  split; [|split; [|split]].
  - repeat case_decide; try discriminate. lia.
  - intros H. repeat case_decide; try lia. done.
  - intros H. repeat case_decide; try lia. done.
  - intros H. repeat case_decide; try lia. done.
Qed.

Lemma stockStatusClass_never_out_witness :
  stockStatusClass 0 = "low" ∧ stockStatusLabel 0 = "Out of Stock".
Proof. apply (stockStatusClass_never_out 0). lia. Defined.

(** ** The quantity buttons *)

Lemma findItem_set_quantity (id : string) (c : list CartItem.t) i item q :
  findItem id c = Some (i, item) →
  findItem id (<[i := CartItem.set_quantity q item]> c)
  = Some (i, CartItem.set_quantity q item).
Proof.
  unfold findItem. intros Hf. apply list_find_Some in Hf as (Hi & Hid & Hbefore).
  apply list_find_Some. split; [|split].
  - apply list_lookup_insert_eq. by eapply lookup_lt_Some.
  - exact Hid.
  - intros j y Hj Hlt. rewrite list_lookup_insert_ne in Hj by lia. by eapply Hbefore.
Qed.

Lemma set_quantity_same (item : CartItem.t) :
  CartItem.set_quantity (CartItem.quantity item) item = item.
Proof. by destruct item. Qed.

Lemma updateCartItemQuantity_commit productId change s i item :
  findItem productId (cart s) = Some (i, item) →
  0 < CartItem.quantity item + change <= CartItem.maxStock item →
  cart (updateCartItemQuantity productId change s)
  = <[i := CartItem.set_quantity (CartItem.quantity item + change) item]> (cart s).
Proof.
  intros Hf [Hpos Hmax]. unfold updateCartItemQuantity. rewrite Hf.
  rewrite decide_False by lia. rewrite decide_True by lia.
  by rewrite cart_updateCartDisplay.
Qed.

(** X11.  The [+] and [-] buttons of a cart row call
    [updateCartItemQuantity] with 1 and -1.  On a line with a positive
    quantity below its [maxStock], [+] and then [-] give back the cart as it
    was.  [-] and then [+] do so only from a quantity of 2 or more (within
    [maxStock]): from a quantity of 1, [-] removes the line and [+], finding
    no line, does not bring it back. *)
Theorem plus_minus_buttons (productId : string) (s : POS) i item :
  findItem productId (cart s) = Some (i, item) →
  (0 < CartItem.quantity item < CartItem.maxStock item →
     cart (updateCartItemQuantity productId (-1) (updateCartItemQuantity productId 1 s))
     = cart s)
  ∧ (2 <= CartItem.quantity item <= CartItem.maxStock item →
     cart (updateCartItemQuantity productId 1 (updateCartItemQuantity productId (-1) s))
     = cart s)
  ∧ (CartItem.quantity item = 1 →
     cart (updateCartItemQuantity productId 1 (updateCartItemQuantity productId (-1) s))
     = filter (λ item, CartItem.id item ≠ productId) (cart s)
     ∧ item ∉ cart (updateCartItemQuantity productId 1
                      (updateCartItemQuantity productId (-1) s))).
Proof.
  intros Hf. pose proof (findItem_Some _ _ _ _ Hf) as [Hi Hid].
  assert (Hback : ∀ q,
    <[i := CartItem.set_quantity (CartItem.quantity item)
             (CartItem.set_quantity q item)]>
      (<[i := CartItem.set_quantity q item]> (cart s)) = cart s).
  { intros q. rewrite list_insert_insert_eq.
    change (CartItem.set_quantity (CartItem.quantity item) (CartItem.set_quantity q item))
      with (CartItem.set_quantity (CartItem.quantity item) item).
    rewrite set_quantity_same. by apply list_insert_id. }
  split; [|split].
  - intros Hq.
    pose proof (updateCartItemQuantity_commit productId 1 s i item Hf ltac:(lia)) as H1.
    rewrite (updateCartItemQuantity_commit productId (-1) _ i
               (CartItem.set_quantity (CartItem.quantity item + 1) item)).
    + rewrite H1. simpl.
      replace (CartItem.quantity item + 1 + -1) with (CartItem.quantity item) by lia.
      apply Hback.
    + rewrite H1. by apply findItem_set_quantity.
    + simpl. lia.
  - intros Hq.
    pose proof (updateCartItemQuantity_commit productId (-1) s i item Hf ltac:(lia)) as H1.
    rewrite (updateCartItemQuantity_commit productId 1 _ i
               (CartItem.set_quantity (CartItem.quantity item + -1) item)).
    + rewrite H1. simpl.
      replace (CartItem.quantity item + -1 + 1) with (CartItem.quantity item) by lia.
      apply Hback.
    + rewrite H1. by apply findItem_set_quantity.
    + simpl. lia.
  - intros Hq.
    assert (H1 : cart (updateCartItemQuantity productId (-1) s)
                 = filter (λ item, CartItem.id item ≠ productId) (cart s)).
    { unfold updateCartItemQuantity. rewrite Hf. rewrite decide_True by lia.
      apply cart_removeFromCart. }
    assert (H2 : updateCartItemQuantity productId 1 (updateCartItemQuantity productId (-1) s)
                 = updateCartItemQuantity productId (-1) s).
    { unfold updateCartItemQuantity at 1.
      rewrite (proj2 (findItem_None productId _)); [reflexivity|].
      rewrite H1. apply removed_id_gone. }
    rewrite H2, H1. split; [reflexivity|].
    intros Hin. apply list_elem_of_filter in Hin as [Hne _]. by apply Hne.
Qed.

Lemma plus_minus_buttons_witness :
  cart (updateCartItemQuantity "A" (-1)
          (updateCartItemQuantity "A" 1 (addToCart (productA 3) initial)))
  = [CartItem.mk "A" "Lipstick" (10 # 1) 1 3]
  ∧ cart (updateCartItemQuantity "A" 1
            (updateCartItemQuantity "A" (-1) (addToCart (productA 3) initial)))
    = [].
Proof.
  pose proof (plus_minus_buttons "A" (addToCart (productA 3) initial) 0%nat
                (CartItem.mk "A" "Lipstick" (10 # 1) 1 3) eq_refl)
    as (Hplus & _ & Hminus).
  split.
  - rewrite Hplus; [reflexivity | simpl; lia].
  - destruct Hminus as [-> _]; reflexivity.
Defined.

(** ** Adding one product several times *)

(** X12.  Adding the same product [n >= 1] times to an empty cart gives one
    line: its quantity is [n] capped at the product's stock, and 1 when the
    stock is 0 or less, since the first add does not look at the stock. *)
Theorem addTimes_quantity (n : nat) (product : Product.t) (s : POS) :
  cart s = [] →
  (1 <= n)%nat →
  cart (addTimes n product s)
  = [CartItem.mk (Product.id product) (Product.name product) (Product.price product)
       (Z.max 1 (Z.min (Z.of_nat n) (Product.stock product))) (Product.stock product)].
Proof.
  intros Hs Hn. induction n as [|n IH]; [lia|].
  destruct n as [|n].
  - simpl. rewrite addToCart_new by (by rewrite Hs).
    rewrite Hs. simpl. f_equal. f_equal. lia.
  - specialize (IH ltac:(lia)).
    change (addTimes (S (S n)) product s)
      with (addToCart product (addTimes (S n) product s)).
    set (q := Z.max 1 (Z.min (Z.of_nat (S n)) (Product.stock product))) in IH.
    assert (Hf : findItem (Product.id product) (cart (addTimes (S n) product s))
                 = Some (0%nat, CartItem.mk (Product.id product) (Product.name product)
                                  (Product.price product) q (Product.stock product))).
    { rewrite IH. unfold findItem. simpl. by rewrite decide_True. }
    destruct (decide (q < Product.stock product)) as [Hlt | Hge].
    + rewrite (addToCart_increment _ _ _ _ Hf Hlt). rewrite IH. simpl.
      unfold CartItem.set_quantity. simpl. f_equal. f_equal. lia.
    + rewrite (addToCart_refused _ _ _ _ Hf) by (simpl; lia).
      unfold showToast. cbn [cart]. rewrite IH. f_equal. f_equal. lia.
Qed.

Lemma addTimes_quantity_witness :
  cart (addTimes 5 (productA 3) initial) = [CartItem.mk "A" "Lipstick" (10 # 1) 3 3].
Proof. apply (addTimes_quantity 5 (productA 3) initial eq_refl). lia. Defined.

(** ** The price a line keeps *)




(** ** The darker shade of the theme colour *)

Module ColorFacts.
Import Color.

Lemma append_String (c : Ascii.ascii) (s t : string) :
  String.append (String c s) t = String c (String.append s t).
Proof. reflexivity. Qed.

Lemma append_Empty (t : string) : String.append "" t = t.
Proof. reflexivity. Qed.

Lemma append_assoc (s t u : string) :
  String.append (String.append s t) u = String.append s (String.append t u).
Proof.
  induction s as [|c s IH]; [reflexivity|].
  by rewrite !append_String, IH.
Qed.

Lemma hexDigit_facts (c : Ascii.ascii) (d : Z) :
  hexDigit c = Some d →
  0 <= d <= 15
  ∧ isWhiteSpace c = false
  ∧ Ascii.eqb c "-" = false ∧ Ascii.eqb c "+" = false
  ∧ Ascii.eqb c "x" = false ∧ Ascii.eqb c "X" = false
  ∧ Ascii.eqb c "#" = false.
Proof.
  destruct c as [[] [] [] [] [] [] [] []]; intros H; vm_compute in H;
    try discriminate H; injection H as <-; repeat split; (reflexivity || lia).
Qed.

Lemma parseInt16_two (c1 c2 : Ascii.ascii) (d1 d2 : Z) :
  hexDigit c1 = Some d1 → hexDigit c2 = Some d2 →
  parseInt16 (String c1 (String c2 "")) = Some (16 * d1 + d2).
Proof.
  intros H1 H2.
  destruct (hexDigit_facts _ _ H1) as (_ & Hw & Hm & Hp & _).
  destruct (hexDigit_facts _ _ H2) as (_ & _ & _ & _ & Hx & HX & _).
  unfold parseInt16. cbn [trimStart]. rewrite Hw, Hm, Hp, Hx, HX.
  rewrite andb_false_r. cbn [digits]. rewrite H1. cbn [digits]. rewrite H2.
  simpl. f_equal. lia.
Qed.

Lemma removeHash_digits (s : string) :
  Forall (λ c, is_Some (hexDigit c)) (list_ascii_of_string s) → removeHash s = s.
Proof.
  induction s as [|c rest IH]; [reflexivity|]. simpl. intros H.
  apply Forall_cons in H as [[d Hd] Hrest].
  destruct (hexDigit_facts _ _ Hd) as (_ & _ & _ & _ & _ & _ & ->).
  by rewrite IH.
Qed.

(** What [toString(16).padStart(2, '0')] writes for a channel value is two
    digits that read back as the value. *)
Lemma twoDigits_bytes :
  forallb (λ v, match twoDigits v with
                | String x1 (String x2 EmptyString) =>
                    match hexDigit x1, hexDigit x2 with
                    | Some e1, Some e2 => bool_decide (16 * e1 + e2 = v)
                    | _, _ => false
                    end
                | _ => false
                end) (seqZ 0 256) = true.
Proof. vm_compute. reflexivity. Qed.

Lemma twoDigits_shape (v : Z) :
  0 <= v <= 255 →
  ∃ x1 x2 e1 e2,
    twoDigits v = String x1 (String x2 "")
    ∧ hexDigit x1 = Some e1 ∧ hexDigit x2 = Some e2 ∧ 16 * e1 + e2 = v.
Proof.
  intros Hv. pose proof (proj1 (forallb_forall _ _) twoDigits_bytes v) as Hall.
  cbv beta in Hall.
  assert (Hin : In v (seqZ 0 256)) by (apply list_elem_of_In, elem_of_seqZ; lia).
  specialize (Hall Hin).
  destruct (twoDigits v) as [|x1 [|x2 [|]]]; try discriminate Hall.
  destruct (hexDigit x1) as [e1|] eqn:H1; [|discriminate Hall].
  destruct (hexDigit x2) as [e2|] eqn:H2; [|discriminate Hall].
  apply bool_decide_eq_true in Hall. exists x1, x2, e1, e2. by repeat split.
Qed.

Lemma adjustColor_digits (c1 c2 c3 c4 c5 c6 : Ascii.ascii) (d1 d2 d3 d4 d5 d6 amount : Z) :
  hexDigit c1 = Some d1 → hexDigit c2 = Some d2 → hexDigit c3 = Some d3 →
  hexDigit c4 = Some d4 → hexDigit c5 = Some d5 → hexDigit c6 = Some d6 →
  adjustColor (String c1 (String c2 (String c3 (String c4 (String c5 (String c6 ""))))))
    amount
  = String "#"
      (String.append (twoDigits (Z.max 0 (Z.min 255 (16 * d1 + d2 + amount))))
         (String.append (twoDigits (Z.max 0 (Z.min 255 (16 * d3 + d4 + amount))))
            (twoDigits (Z.max 0 (Z.min 255 (16 * d5 + d6 + amount)))))).
Proof.
  intros H1 H2 H3 H4 H5 H6. unfold adjustColor.
  rewrite removeHash_digits.
  - cbn [substring]. unfold channel.
    rewrite (parseInt16_two _ _ _ _ H1 H2), (parseInt16_two _ _ _ _ H3 H4),
      (parseInt16_two _ _ _ _ H5 H6).
    reflexivity.
  - simpl. repeat constructor; eauto.
Qed.

Lemma sixDigits_inv (hex : string) :
  sixDigits hex →
  ∃ c1 c2 c3 c4 c5 c6 d1 d2 d3 d4 d5 d6,
    hex = String c1 (String c2 (String c3 (String c4 (String c5 (String c6 "")))))
    ∧ hexDigit c1 = Some d1 ∧ hexDigit c2 = Some d2 ∧ hexDigit c3 = Some d3
    ∧ hexDigit c4 = Some d4 ∧ hexDigit c5 = Some d5 ∧ hexDigit c6 = Some d6.
Proof.
  intros [Hlen Hall].
  destruct hex as [|c1 [|c2 [|c3 [|c4 [|c5 [|c6 [|]]]]]]]; try discriminate Hlen.
  simpl in Hall.
  repeat (apply Forall_cons in Hall as [[? ?] Hall]).
  do 12 eexists. split; [reflexivity|]. repeat split; eassumption.
Qed.

End ColorFacts.



(** X15.  Two shifts in the same direction add up: for a colour in full,
    shifting by [a] and then by [b], both 0 or more or both 0 or less, gives
    the colour shifted by [a + b].  (Shifts in opposite directions do not:
    what was cut off at 0 or 255 does not come back.) *)
Theorem adjustColor_compose (hex : string) (a b : Z) :
  Color.sixDigits hex →
  (0 <= a ∧ 0 <= b) ∨ (a <= 0 ∧ b <= 0) →
  Color.adjustColor (Color.adjustColor hex a) b = Color.adjustColor hex (a + b).
Proof.
  intros Hhex Hsign.
  destruct (ColorFacts.sixDigits_inv hex Hhex)
    as (c1 & c2 & c3 & c4 & c5 & c6 & d1 & d2 & d3 & d4 & d5 & d6
        & -> & H1 & H2 & H3 & H4 & H5 & H6).
  pose proof (ColorFacts.hexDigit_facts _ _ H1) as [? _].
  pose proof (ColorFacts.hexDigit_facts _ _ H2) as [? _].
  pose proof (ColorFacts.hexDigit_facts _ _ H3) as [? _].
  pose proof (ColorFacts.hexDigit_facts _ _ H4) as [? _].
  pose proof (ColorFacts.hexDigit_facts _ _ H5) as [? _].
  pose proof (ColorFacts.hexDigit_facts _ _ H6) as [? _].
  rewrite (ColorFacts.adjustColor_digits _ _ _ _ _ _ _ _ _ _ _ _ (a + b) H1 H2 H3 H4 H5 H6).
  rewrite (ColorFacts.adjustColor_digits _ _ _ _ _ _ _ _ _ _ _ _ a H1 H2 H3 H4 H5 H6).
  destruct (ColorFacts.twoDigits_shape (Z.max 0 (Z.min 255 (16 * d1 + d2 + a))))
    as (x1 & x2 & e1 & e2 & -> & Hx1 & Hx2 & He12); [lia|].
  destruct (ColorFacts.twoDigits_shape (Z.max 0 (Z.min 255 (16 * d3 + d4 + a))))
    as (x3 & x4 & e3 & e4 & -> & Hx3 & Hx4 & He34); [lia|].
  destruct (ColorFacts.twoDigits_shape (Z.max 0 (Z.min 255 (16 * d5 + d6 + a))))
    as (x5 & x6 & e5 & e6 & -> & Hx5 & Hx6 & He56); [lia|].
  rewrite !ColorFacts.append_String, !ColorFacts.append_Empty.
  unfold Color.adjustColor at 1. cbn [Color.removeHash]. simpl Ascii.eqb. cbv iota.
  cbn [substring]. unfold Color.channel.
  rewrite (ColorFacts.parseInt16_two _ _ _ _ Hx1 Hx2),
    (ColorFacts.parseInt16_two _ _ _ _ Hx3 Hx4), (ColorFacts.parseInt16_two _ _ _ _ Hx5 Hx6).
  cbn [fmap option_fmap option_map].
  rewrite He12, He34, He56.
  replace (Z.max 0 (Z.min 255 (Z.max 0 (Z.min 255 (16 * d1 + d2 + a)) + b)))
    with (Z.max 0 (Z.min 255 (16 * d1 + d2 + (a + b)))) by lia.
  replace (Z.max 0 (Z.min 255 (Z.max 0 (Z.min 255 (16 * d3 + d4 + a)) + b)))
    with (Z.max 0 (Z.min 255 (16 * d3 + d4 + (a + b)))) by lia.
  replace (Z.max 0 (Z.min 255 (Z.max 0 (Z.min 255 (16 * d5 + d6 + a)) + b)))
    with (Z.max 0 (Z.min 255 (16 * d5 + d6 + (a + b)))) by lia.
  reflexivity.
Qed.

Lemma adjustColor_compose_witness :
  Color.adjustColor (Color.adjustColor "D4AF37" (-20)) (-20)
  = Color.adjustColor "D4AF37" (-40).
Proof.
  apply (adjustColor_compose "D4AF37" (-20) (-20)).
  - split; [reflexivity|]. simpl. repeat constructor; vm_compute; eauto.
  - right. lia.
Defined.

(** X16.  A colour with fewer than five digits, such as the short form
    [#fff], has no blue part to parse: [adjustColor] then writes [NaN] where
    the last two digits belong. *)
Theorem adjustColor_short (color : string) (amount : Z) :
  (String.length (Color.removeHash color) <= 4)%nat →
  ∃ redGreen,
    Color.adjustColor color amount = String "#" (String.append redGreen "NaN").
Proof.
  intros Hlen. unfold Color.adjustColor.
  assert (Hblue : substring 4 2 (Color.removeHash color) = "").
  { destruct (Color.removeHash color) as [|c1 [|c2 [|c3 [|c4 [|c5 rest]]]]];
      try reflexivity. simpl in Hlen. lia. }
  rewrite Hblue. eexists. f_equal. rewrite <- ColorFacts.append_assoc. reflexivity.
Qed.

Lemma adjustColor_short_witness :
  ∃ redGreen, Color.adjustColor "#fff" (-20) = String "#" (String.append redGreen "NaN").
Proof. apply (adjustColor_short "#fff" (-20)). simpl. lia. Defined.

(** ** Inventory alerts *)

Lemma filter_none {A} (P : A → Prop) `{∀ x, Decision (P x)} (l : list A) :
  length (filter P l) = 0%nat ↔ Forall (λ x, ¬ P x) l.
Proof.
  induction l as [|x l IH]; [by split; [constructor|]|].
  rewrite filter_cons. destruct (decide (P x)) as [Hx | Hx]; simpl.
  - split; [discriminate|]. intros Hall. apply Forall_cons in Hall as [Hn _]. done.
  - rewrite IH. split.
    + intros Hall. by constructor.
    + intros Hall. by apply Forall_cons in Hall as [_ Hall].
Qed.

Lemma filter_some {A} (P : A → Prop) `{∀ x, Decision (P x)} (l : list A) :
  (0 < length (filter P l))%nat ↔ Exists P l.
Proof.
  induction l as [|x l IH].
  - simpl. split; [lia | by intros ?%Exists_nil].
  - rewrite filter_cons, Exists_cons.
    destruct (decide (P x)) as [Hx | Hx]; simpl.
    + split; [by left | lia].
    + rewrite IH. tauto.
Qed.

Ltac alert_cases :=
  repeat case_decide; simpl;
  (split;
   [ intros Hn; repeat (apply elem_of_cons in Hn as [Hn | Hn]);
     try (by apply elem_of_nil in Hn); try discriminate Hn;
     try (injection Hn as ->; split; [reflexivity | lia]); try lia
   | intros [-> Hn]; try lia; rewrite !elem_of_cons; auto ]).

(** X17.  When the inventory request is answered, the alerts of the
    dashboard are never empty: they are the single "all good" item exactly
    when every product has more than 5 in stock, and otherwise an
    out-of-stock item, with the number of products whose stock is 0 or
    less, when there is such a product, followed by a low-stock item, with
    the number of products whose stock is from 1 to 5, when there is one.
    When the request fails, the alerts show 2 and 5 whatever the inventory
    is. *)
Theorem inventoryAlerts_counts (products : list Product.t) :
  let low := Z.of_nat (length (filter (λ p, 0 < Product.stock p ∧ Product.stock p <= 5)
                                 products)) in
  let out := Z.of_nat (length (filter (λ p, Product.stock p <= 0) products)) in
  loadInventoryAlerts (Resolved products) ≠ []
  ∧ (loadInventoryAlerts (Resolved products) = [AllGood]
     ↔ Forall (λ p, 5 < Product.stock p) products)
  ∧ (∀ n, OutOfStockAlert n ∈ loadInventoryAlerts (Resolved products)
          ↔ n = out ∧ Exists (λ p, Product.stock p <= 0) products)
  ∧ (∀ n, LowStockAlert n ∈ loadInventoryAlerts (Resolved products)
          ↔ n = low ∧ Exists (λ p, 0 < Product.stock p ∧ Product.stock p <= 5) products)
  ∧ (∀ message,
       loadInventoryAlerts (Thrown message) = [OutOfStockAlert 2; LowStockAlert 5]).
Proof.
  intros low out.
  assert (Hlow : low = 0 ↔ Forall (λ p, ¬ (0 < Product.stock p ∧ Product.stock p <= 5))
                              products).
  { pose proof (filter_none (λ p, 0 < Product.stock p ∧ Product.stock p <= 5) products)
      as Hf.
    rewrite <- Hf. unfold low. lia. }
  assert (Hout : out = 0 ↔ Forall (λ p, ¬ Product.stock p <= 0) products).
  { pose proof (filter_none (λ p, Product.stock p <= 0) products) as Hf.
    rewrite <- Hf. unfold out. lia. }
  assert (Hlow' : 0 < low ↔ Exists (λ p, 0 < Product.stock p ∧ Product.stock p <= 5)
                               products).
  { pose proof (filter_some (λ p, 0 < Product.stock p ∧ Product.stock p <= 5) products)
      as Hf.
    rewrite <- Hf. unfold low. lia. }
  assert (Hout' : 0 < out ↔ Exists (λ p, Product.stock p <= 0) products).
  { pose proof (filter_some (λ p, Product.stock p <= 0) products) as Hf.
    rewrite <- Hf. unfold out. lia. }
  assert (Hgood : Forall (λ p, 5 < Product.stock p) products ↔ out = 0 ∧ low = 0).
  { rewrite Hlow, Hout, !Forall_forall. split.
    - intros H0. split; intros p Hp; specialize (H0 p Hp); simpl in *; lia.
    - intros [H1 H2] p Hp. specialize (H1 p Hp). specialize (H2 p Hp). simpl in *. lia. }
  assert (H0low : 0 <= low) by (unfold low; lia).
  assert (H0out : 0 <= out) by (unfold out; lia).
  change (loadInventoryAlerts (Resolved products)) with (renderInventoryAlerts low out).
  unfold renderInventoryAlerts. rewrite Hgood.
  setoid_rewrite <- Hlow'. setoid_rewrite <- Hout'.
  split; [|split; [|split; [|split]]].
  - repeat case_decide; simpl; try discriminate; lia.
  - repeat case_decide; simpl; split; intros Heq; try discriminate Heq; try lia; done.
  - intros n. alert_cases.
  - intros n. alert_cases.
  - reflexivity.
Qed.

(** ** The store configuration factory *)

Section FactoryFacts.

Context {V : Type}.
Variable obj : gmap string V → V.
Variable spread : V → gmap string V.
Variable STORE_CONFIG : gmap string V.
Hypothesis spread_obj : ∀ m, spread (obj m) = m.

Lemma lookup_sections (f : string → V) (ks : list string) (base : gmap string V) k :
  foldl (λ config k, <[k := f k]> config) base ks !! k
  = if decide (k ∈ ks) then Some (f k) else base !! k.
Proof.
  revert base. induction ks as [|k' ks IH]; intros base; cbn [foldl].
  - destruct (decide (k ∈ [])) as [Hin | _]; [|reflexivity].
    by apply elem_of_nil in Hin.
  - rewrite IH. destruct (decide (k ∈ ks)) as [Hin | Hin].
    + destruct (decide (k ∈ k' :: ks)) as [_ | Hn]; [reflexivity|].
      destruct Hn. by right.
    + destruct (decide (k = k')) as [-> | Hne].
      * rewrite lookup_insert_eq.
        destruct (decide (k' ∈ k' :: ks)) as [_ | Hn]; [reflexivity|].
        destruct Hn. by left.
      * rewrite lookup_insert_ne by done.
        destruct (decide (k ∈ k' :: ks)) as [Hk | _]; [|reflexivity].
        apply elem_of_cons in Hk as [? | ?]; done.
Qed.

(** X18.  In each of the eleven sections the factory merges ([branding],
    [contact], [regional], ...), a key the overrides set takes their value,
    and every other key keeps the default of the template; the section of
    the result is a new object with just these properties. *)
Theorem createStoreConfig_sections (overrides : gmap string V) (k : string) :
  k ∈ Factory.merged →
  ∃ section,
    Factory.createStoreConfig obj spread STORE_CONFIG overrides !! k = Some section
    ∧ ∀ j, spread section !! j
           = match Factory.spreadOf spread (overrides !! k) !! j with
             | Some v => Some v
             | None => Factory.spreadOf spread (STORE_CONFIG !! k) !! j
             end.
Proof using spread_obj.
  intros Hk. eexists. split.
  - unfold Factory.createStoreConfig.
    rewrite (lookup_sections
               (λ k, obj (Factory.spreadOf spread (overrides !! k)
                          ∪ Factory.spreadOf spread (STORE_CONFIG !! k)))).
    destruct (decide (k ∈ Factory.merged)) as [_ | Hn]; [reflexivity | done].
  - intros j. rewrite spread_obj.
    destruct (Factory.spreadOf spread (overrides !! k) !! j) as [v|] eqn:Hj.
    + by apply lookup_union_Some_l.
    + by apply lookup_union_r.
Qed.

(** X19.  Every other property of the result is taken whole: from the
    overrides when they have it, from the template otherwise.  An object
    given for a property outside the eleven merged sections, such as
    [email] or [discounts], replaces the default object with all its
    keys. *)
Theorem createStoreConfig_other (overrides : gmap string V) (k : string) :
  k ∉ Factory.merged →
  Factory.createStoreConfig obj spread STORE_CONFIG overrides !! k
  = match overrides !! k with
    | Some v => Some v
    | None => STORE_CONFIG !! k
    end.
Proof.
  intros Hk. unfold Factory.createStoreConfig.
  rewrite (lookup_sections
             (λ k, obj (Factory.spreadOf spread (overrides !! k)
                        ∪ Factory.spreadOf spread (STORE_CONFIG !! k)))).
  destruct (decide (k ∈ Factory.merged)) as [Hin | _]; [done|].
  destruct (overrides !! k) as [v|] eqn:Hov.
  - by apply lookup_union_Some_l.
  - by rewrite lookup_union_r.
Qed.

(** X20.  With no overrides the factory gives back the template, property
    for property, provided the eleven sections of the template are
    objects. *)
Theorem createStoreConfig_default :
  (∀ k, k ∈ Factory.merged → ∃ m, STORE_CONFIG !! k = Some (obj m)) →
  Factory.createStoreConfig obj spread STORE_CONFIG ∅ = STORE_CONFIG.
Proof using spread_obj.
  intros Hsections. apply map_eq. intros k.
  unfold Factory.createStoreConfig.
  rewrite (lookup_sections
             (λ k, obj (Factory.spreadOf spread ((∅ : gmap string V) !! k)
                        ∪ Factory.spreadOf spread (STORE_CONFIG !! k)))).
  destruct (decide (k ∈ Factory.merged)) as [Hk | Hk].
  - destruct (Hsections k Hk) as [m Hm]. rewrite Hm, lookup_empty. simpl.
    by rewrite spread_obj, (left_id_L ∅ (∪)).
  - by rewrite (left_id_L ∅ (∪)).
Qed.

End FactoryFacts.

Lemma createStoreConfig_sections_witness :
  ∃ section,
    Factory.createStoreConfig Factory.Obj Factory.spreadValue template budgetOverrides
      !! "regional" = Some section
    ∧ Factory.spreadValue section !! "taxRate" = Some (Factory.Num 6)
    ∧ Factory.spreadValue section !! "timezone" = Some (Factory.Num 5).
Proof.
  destruct (createStoreConfig_sections Factory.Obj Factory.spreadValue template
              (λ m, eq_refl) budgetOverrides "regional") as (section & Hsection & Hkeys).
  - unfold Factory.merged. rewrite !elem_of_cons. auto.
  - exists section. split; [exact Hsection|]. split.
    + rewrite (Hkeys "taxRate"). vm_compute. reflexivity.
    + rewrite (Hkeys "timezone"). vm_compute. reflexivity.
Defined.

Lemma createStoreConfig_other_witness :
  Factory.createStoreConfig Factory.Obj Factory.spreadValue template budgetOverrides
    !! "email" = Some (Factory.Obj {[ "enabled" := Factory.Flag true ]}).
Proof.
  rewrite (createStoreConfig_other Factory.Obj Factory.spreadValue template
             budgetOverrides "email").
  - vm_compute. reflexivity.
  - unfold Factory.merged. rewrite !elem_of_cons, elem_of_nil.
    intros Hin. repeat (destruct Hin as [Hin | Hin]; [discriminate Hin|]). exact Hin.
Defined.

Lemma createStoreConfig_default_witness :
  Factory.createStoreConfig Factory.Obj Factory.spreadValue template ∅ = template.
Proof.
  apply (createStoreConfig_default Factory.Obj Factory.spreadValue template (λ m, eq_refl)).
  intros k Hk. unfold Factory.merged in Hk.
  repeat (apply elem_of_cons in Hk as [-> | Hk];
          [exists {[ "taxRate" := Factory.Num 8; "timezone" := Factory.Num 5 ]};
           vm_compute; reflexivity|]).
  by apply elem_of_nil in Hk.
Defined.

(** ** Changes made while a request is outstanding *)

Ltac through_display :=
  repeat match goal with
         | |- context [updateCartDisplay ?x] =>
             destruct (network_updateCartDisplay x) as [-> ->]
         end.

Lemma cart_run_frame ops (s : POS) :
  sent (run ops s) = sent s ∧ inFlight (run ops s) = inFlight s.
Proof.
  revert s. induction ops as [|op ops IH]; intros s; [done|].
  simpl. destruct (IH (applyOp s op)) as [-> ->].
  destruct op as [product | productId | productId change]; cbn [applyOp].
  - unfold addToCart. destruct (findItem _ _) as [[i line]|]; [case_decide|];
      through_display; done.
  - unfold removeFromCart. simpl. through_display. done.
  - unfold updateCartItemQuantity. destruct (findItem _ _) as [[i item]|]; [|done].
    repeat case_decide; unfold removeFromCart; simpl; through_display; done.
Qed.

Lemma cart_applyOp_ext op (x y : POS) :
  cart x = cart y → cart (applyOp x op) = cart (applyOp y op).
Proof.
  intros Hxy. destruct op as [product | productId | productId change]; cbn [applyOp].
  - destruct (findItem (Product.id product) (cart y)) as [[i line]|] eqn:Hy.
    + assert (Hx : findItem (Product.id product) (cart x) = Some (i, line))
        by (by rewrite Hxy).
      destruct (decide (CartItem.quantity line < Product.stock product)) as [Hlt | Hge].
      * rewrite (addToCart_increment _ _ _ _ Hx Hlt), (addToCart_increment _ _ _ _ Hy Hlt).
        by rewrite Hxy.
      * rewrite (addToCart_refused _ x _ _ Hx), (addToCart_refused _ y _ _ Hy) by lia.
        exact Hxy.
    + assert (Hx : findItem (Product.id product) (cart x) = None) by (by rewrite Hxy).
      rewrite (addToCart_new _ _ Hx), (addToCart_new _ _ Hy). by rewrite Hxy.
  - rewrite !cart_removeFromCart. by rewrite Hxy.
  - unfold updateCartItemQuantity. rewrite Hxy.
    destruct (findItem productId (cart y)) as [[i item]|]; [|exact Hxy].
    repeat case_decide.
    + rewrite !cart_removeFromCart. by rewrite Hxy.
    + by rewrite !cart_updateCartDisplay.
    + exact Hxy.
Qed.

(** X21.  Whatever is added to, removed from or changed in the cart while
    the transaction request is outstanding is not part of the sale, which
    lists the lines as they were when [checkout()] was called, and does not
    survive a successful answer either: the cart is emptied all the same.
    After a failure the cart is as those changes left it. *)
Theorem edits_during_checkout (b : Backend) (ops : list CartOp)
    (reply : ApiResult Response.t) (s s1 : POS) transactionData :
  checkout_submit s = (s1, Some transactionData) →
  TransactionData.items transactionData = soldItem <$> cart s
  ∧ sent (run ops s1) = sent s ++ [transactionData]
  ∧ (succeeded reply = true → cart (checkout_settle b reply (run ops s1)) = [])
  ∧ (succeeded reply = false →
       cart (checkout_settle b reply (run ops s1)) = cart (run ops s)).
Proof.
  intros Hsub.
  destruct (checkout_submit_request _ _ _ Hsub) as [Hreq _].
  destruct (checkout_submit_issued _ _ _ Hsub) as [_ Hs1].
  split; [by rewrite Hreq|]. split.
  { rewrite (proj1 (cart_run_frame ops s1)). by rewrite Hs1. }
  assert (Hcarts : ∀ ops' (x y : POS), cart x = cart y → cart (run ops' x) = cart (run ops' y)).
  { induction ops' as [|op ops' IH]; intros x y Hxy; [exact Hxy|].
    simpl. apply IH. by apply cart_applyOp_ext. }
  rewrite cart_checkout_settle. split; intros ->; [reflexivity|].
  apply Hcarts. by rewrite Hs1.
Qed.

Lemma edits_during_checkout_witness :
  cart (checkout_settle accepting (Resolved (Response.mk true (34 # 10) None))
          (run [AddItem (productA 5)] oneInFlight)) = []
  ∧ cart (run [AddItem (productA 5)] oneInFlight)
    = [CartItem.mk "A" "Lipstick" (10 # 1) 3 5].
Proof.
  destruct (edits_during_checkout accepting [AddItem (productA 5)]
              (Resolved (Response.mk true (34 # 10) None))
              paidSale oneInFlight paidRequest eq_refl) as (_ & _ & Hok & _).
  split; [by apply Hok | reflexivity].
Defined.
